(** * Ledger front end: classification, filters, totals and formatting

    A shallow embedding of the React front end of the accounts tracker
    (pages/Transactions.jsx, pages/Dashboard.jsx, pages/Categories.jsx,
    components/MonthFilter.jsx, services/api.js) and the properties of the
    ledger specification that this code decides.

    Numbers are JavaScript numbers read as exact rationals together with
    [NaN]; infinities and binary rounding are outside the model.  Functions
    of the JavaScript engine whose result is not fixed by the repository
    (reading a decimal string, [toFixed], [Intl.NumberFormat], [Date]) are
    fields of the class [Host]; every statement below holds for every
    host. *)

From Stdlib Require Import QArith Qabs Qround Lqa ZArith String Ascii List.
From stdpp Require Import gmap strings list pretty.

Close Scope Q_scope.
Local Open Scope Z_scope.
Local Open Scope list_scope.

(** ** JavaScript values *)

Module JS.

Inductive number : Type :=
| Fin (q : Q)
| NaN.

Inductive value : Type :=
| VUndefined
| VNull
| VNum (n : number)
| VStr (s : string).

(** [a + b], [a - b], [-a], [a / b] and [Math.abs(a)] on numbers. *)
Definition add (a b : number) : number :=
  match a, b with
  | Fin x, Fin y => Fin (x + y)%Q
  | _, _ => NaN
  end.

Definition sub (a b : number) : number :=
  match a, b with
  | Fin x, Fin y => Fin (x - y)%Q
  | _, _ => NaN
  end.

Definition neg (a : number) : number :=
  match a with
  | Fin x => Fin (- x)%Q
  | NaN => NaN
  end.

Definition div (a b : number) : number :=
  match a, b with
  | Fin x, Fin y => if Qeq_bool y 0 then NaN else Fin (x / y)%Q
  | _, _ => NaN
  end.

Definition Math_abs (a : number) : number :=
  match a with
  | Fin x => Fin (Qabs x)
  | NaN => NaN
  end.

(** [a < b] and [a >= b]; any comparison with [NaN] is false. *)
Definition lt (a b : number) : bool :=
  match a, b with
  | Fin x, Fin y => negb (Qle_bool y x)
  | _, _ => false
  end.

Definition ge (a b : number) : bool :=
  match a, b with
  | Fin x, Fin y => Qle_bool y x
  | _, _ => false
  end.

(** Truthiness: [undefined], [null], [0], [NaN] and [''] are falsy. *)
Definition truthy_number (n : number) : bool :=
  match n with
  | Fin q => negb (Qeq_bool q 0)
  | NaN => false
  end.

Definition truthy_string (s : string) : bool :=
  negb (String.eqb s "").

Definition truthy (v : value) : bool :=
  match v with
  | VUndefined | VNull => false
  | VNum n => truthy_number n
  | VStr s => truthy_string s
  end.

(** [v || d]. *)
Definition or_else (v d : value) : value :=
  if truthy v then v else d.

(** [n || d] for a number [n]. *)
Definition or_else_number (n d : number) : number :=
  if truthy_number n then n else d.

(** [a === b]. *)
Definition strict_eq (a b : value) : bool :=
  match a, b with
  | VUndefined, VUndefined => true
  | VNull, VNull => true
  | VNum (Fin x), VNum (Fin y) => Qeq_bool x y
  | VStr s, VStr t => String.eqb s t
  | _, _ => false
  end.

(** Equality of numbers as values: rationals up to [Qeq]. *)
Definition num_eq (a b : number) : Prop :=
  match a, b with
  | Fin x, Fin y => (x == y)%Q
  | NaN, NaN => True
  | _, _ => False
  end.

(** [parseInt(s)]: leading white space, an optional sign, an optional
    [0x] prefix, then the longest run of digits of the radix; [None] is
    [NaN]. *)
Definition is_space (c : ascii) : bool :=
  let n := N_of_ascii c in
  ((9 <=? n)%N && (n <=? 13)%N) || (n =? 32)%N.

Fixpoint trimStart (s : string) : string :=
  match s with
  | String c r => if is_space c then trimStart r else s
  | EmptyString => s
  end.

Definition digitValue (c : ascii) : option Z :=
  let n := Z.of_N (N_of_ascii c) in
  if (48 <=? n) && (n <=? 57) then Some (n - 48)
  else if (97 <=? n) && (n <=? 122) then Some (n - 87)
  else if (65 <=? n) && (n <=? 90) then Some (n - 55)
  else None.

Fixpoint readDigits (radix : Z) (s : string) (acc : option Z) : option Z :=
  match s with
  | String c r =>
      match digitValue c with
      | Some d =>
          if d <? radix
          then readDigits radix r (Some (default 0 acc * radix + d))
          else acc
      | None => acc
      end
  | EmptyString => acc
  end.

Definition parseInt (s : string) : option Z :=
  let s1 := trimStart s in
  let '(sign, s2) :=
    match s1 with
    | String "-" r => (-1, r)
    | String "+" r => (1, r)
    | _ => (1, s1)
    end in
  let '(radix, s3) :=
    match s2 with
    | String "0" (String "x" r) => (16, r)
    | String "0" (String "X" r) => (16, r)
    | _ => (10, s2)
    end in
  Z.mul sign <$> readDigits radix s3 None.

(** [id === n] for a numeric identifier and the result of [parseInt]. *)
Definition id_eq (i : Z) (n : option Z) : bool :=
  match n with
  | Some k => i =? k
  | None => false
  end.

(** [i === n] when the left side may be [null]. *)
Definition nullable_id_eq (i : option Z) (n : option Z) : bool :=
  match i with
  | Some k => id_eq k n
  | None => false
  end.

(** [s.split('T')[0]]: the text before the first [T]. *)
Fixpoint split_T_0 (s : string) : string :=
  match s with
  | String c r => if Ascii.eqb c "T" then "" else String c (split_T_0 r)
  | EmptyString => ""
  end.

(** The engine: conversions and formatters the repository calls but does
    not define. *)
Class Host : Type := {
  (** [parseFloat(s)] for a string [s] *)
  parseFloat_string : string -> number;
  (** [Number(s)] for a string [s] *)
  Number_string : string -> number;
  (** [x.toFixed(d)] *)
  toFixed : number -> nat -> string;
  (** [new Intl.NumberFormat(locale, {style: 'currency', currency, ...})
      .format(x)]; [None] when it throws *)
  NumberFormat_format : string -> string -> number -> option string;
  (** [new Date(s).valueOf()]; [None] for an invalid date *)
  Date_valueOf : string -> option Z;
  (** [new Date(year, month, day)] as a time value *)
  Date_local : Z -> Z -> Z -> Z;
  getFullYear : Z -> Z;
  getMonth : Z -> Z;
  toISOString : Z -> string
}.

Section Conversions.
Context `{Host}.

(** [parseFloat(v)]: a number is read back from its own rendering. *)
Definition parseFloat (v : value) : number :=
  match v with
  | VNum n => n
  | VStr s => parseFloat_string s
  | VUndefined | VNull => NaN
  end.

(** [Number(v)], the coercion behind [isNaN], [Math.abs] and [<]. *)
Definition ToNumber (v : value) : number :=
  match v with
  | VUndefined => NaN
  | VNull => Fin 0
  | VNum n => n
  | VStr s => Number_string s
  end.

Definition isNaN (v : value) : bool :=
  match ToNumber v with
  | NaN => true
  | Fin _ => false
  end.

(** [parseInt(v)]: a number is rendered and its integer part read. *)
Definition parseInt_value (v : value) : option Z :=
  match v with
  | VStr s => parseInt s
  | VNum (Fin q) => Some (Z.quot (Qnum q) (Zpos (Qden q)))
  | VNum NaN | VUndefined | VNull => None
  end.

(** [new Date(a) < new Date(b)] *)
Definition Date_lt (a b : string) : bool :=
  match Date_valueOf a, Date_valueOf b with
  | Some x, Some y => x <? y
  | _, _ => false
  end.
End Conversions.

End JS.

(** ** Records delivered by the API *)

Module Account.
Record t : Type := {
  id : Z;
  name : string;
  account_type : string;
  default_currency : string;
  opening_balance : JS.value;
  current_balance : JS.value
}.
End Account.

Module Category.
Record t : Type := {
  id : Z;
  name : string;
  category_type : string;
  description : option string
}.
End Category.

Module Transaction.
Record t : Type := {
  id : Z;
  account_id : Z;
  amount : JS.value;
  amount_pkr : JS.value;
  balance_after : JS.value;
  description : option string;
  transaction_date : string;
  category_id : option Z;
  team_id : option Z;
  counterparty : option string;
  currency : option string
}.
End Transaction.

(** An object with string keys and string values, as the filter states
    are: [{...o, [k]: v}] is [<[k:=v]> o], and a missing key reads as
    falsy, like the empty string. *)
Definition prop (o : gmap string string) (k : string) : string :=
  default "" (o !! k).

(** ** pages/Transactions.jsx *)

Module Transactions.
Import JS.

Record formData : Type := {
  account_id : value;
  amount : value;
  description : string;
  transaction_date : string;
  category_id : value;
  team_id : value;
  counterparty : string;
  currency : string
}.

Record state : Type := {
  transactions : list Transaction.t;
  allTransactions : list Transaction.t;
  accounts : list Account.t;
  categories : list Category.t;
  showModal : bool;
  editingTransaction : option Transaction.t;
  filters : gmap string string;
  form : formData
}.

(** The body of a create or update request. *)
Record transactionData : Type := {
  data_form : formData;
  data_amount : number;
  data_account_id : option Z;
  data_category_id : option (option Z);
  data_team_id : option (option Z)
}.

Inductive request : Type :=
| Create (data : transactionData)
| Update (id : Z) (data : transactionData).

(** The body a request carries. *)
Definition dataOf (r : request) : transactionData :=
  match r with
  | Create d => d
  | Update _ d => d
  end.

(** [x || ''] for a nullable identifier and for a nullable string. *)
Definition id_or_empty (i : option Z) : value :=
  match i with
  | Some k => if k =? 0 then VStr "" else VNum (Fin (inject_Z k))
  | None => VStr ""
  end.

Definition string_or_empty (s : option string) : string :=
  default "" s.

(** [!id] for a nullable identifier. *)
Definition falsy_id (i : option Z) : bool :=
  match i with
  | Some k => k =? 0
  | None => true
  end.

Section Code.
Context `{Host}.

(** [today] stands for [new Date().toISOString().split('T')[0]]. *)
Definition openModal (today : string) (transaction : option Transaction.t)
    (st : state) : state :=
  let form' :=
    match transaction with
    | Some tr =>
        {| account_id := VNum (Fin (inject_Z (Transaction.account_id tr)));
           amount := VNum (Math_abs (ToNumber (Transaction.amount tr)));
           description := string_or_empty (Transaction.description tr);
           transaction_date := Transaction.transaction_date tr;
           category_id := id_or_empty (Transaction.category_id tr);
           team_id := id_or_empty (Transaction.team_id tr);
           counterparty := string_or_empty (Transaction.counterparty tr);
           currency := "PKR" |}
    | None =>
        {| account_id := VStr "";
           amount := VNum (Fin 0);
           description := "";
           transaction_date := today;
           category_id := VStr "";
           team_id := VStr "";
           counterparty := "";
           currency := "PKR" |}
    end in
  {| transactions := transactions st;
     allTransactions := allTransactions st;
     accounts := accounts st;
     categories := categories st;
     showModal := true;
     editingTransaction := transaction;
     filters := filters st;
     form := form' |}.

(** [handleSubmit]: the request sent to the API. *)
Definition handleSubmit (st : state) : request :=
  let fd := form st in
  let data :=
    {| data_form := fd;
       data_amount := parseFloat (amount fd);
       data_account_id := parseInt_value (account_id fd);
       data_category_id :=
         if truthy (category_id fd)
         then Some (parseInt_value (category_id fd)) else None;
       data_team_id :=
         if truthy (team_id fd)
         then Some (parseInt_value (team_id fd)) else None |} in
  match editingTransaction st with
  | Some tr => Update (Transaction.id tr) data
  | None => Create data
  end.

(** The amount field is [<input type="number" step="0.01" min="0"
    required>]: the form is submitted only when the field holds a number
    that is at least [min] and a whole number of steps away from it. *)
Definition amountInputValid (v : value) : bool :=
  match v with
  | VStr "" => false
  | _ =>
      match parseFloat v with
      | Fin q =>
          Qle_bool 0 q && (Zpos (Qden (Qred (q * 100))) =? 1)
      | NaN => false
      end
  end.

(** The other [required] controls: account, category and date. *)
Definition checkValidity (fd : formData) : bool :=
  truthy (account_id fd) && amountInputValid (amount fd)
  && truthy (category_id fd) && truthy_string (transaction_date fd).

(** Pressing the submit button: [handleSubmit] runs when the form is
    valid. *)
Definition submitForm (st : state) : option request :=
  if checkValidity (form st) then Some (handleSubmit st) else None.

(** The four filters of [applyFilters], which [handleFilterChange]
    repeats on the new filter object. *)
Definition filterBy (f : gmap string string) (l : list Transaction.t)
    : list Transaction.t :=
  let filtered := l in
  let filtered :=
    if truthy_string (prop f "accountId")
    then List.filter
           (fun t => id_eq (Transaction.account_id t)
                       (parseInt (prop f "accountId"))) filtered
    else filtered in
  let filtered :=
    if truthy_string (prop f "categoryId")
    then List.filter
           (fun t => nullable_id_eq (Transaction.category_id t)
                       (parseInt (prop f "categoryId"))) filtered
    else filtered in
  let filtered :=
    if truthy_string (prop f "startDate")
    then List.filter
           (fun t => String.leb (prop f "startDate")
                       (Transaction.transaction_date t)) filtered
    else filtered in
  let filtered :=
    if truthy_string (prop f "endDate")
    then List.filter
           (fun t => String.leb (Transaction.transaction_date t)
                       (prop f "endDate")) filtered
    else filtered in
  filtered.

Definition setTransactions (l : list Transaction.t) (st : state) : state :=
  {| transactions := l;
     allTransactions := allTransactions st;
     accounts := accounts st;
     categories := categories st;
     showModal := showModal st;
     editingTransaction := editingTransaction st;
     filters := filters st;
     form := form st |}.

Definition setFilters (f : gmap string string) (st : state) : state :=
  {| transactions := transactions st;
     allTransactions := allTransactions st;
     accounts := accounts st;
     categories := categories st;
     showModal := showModal st;
     editingTransaction := editingTransaction st;
     filters := f;
     form := form st |}.

(** [applyFilters(transactionsToFilter)]; the default argument is
    [allTransactions]. *)
Definition applyFilters (transactionsToFilter : option (list Transaction.t))
    (st : state) : state :=
  let l := default (allTransactions st) transactionsToFilter in
  setTransactions (filterBy (filters st) l) st.

Definition handleFilterChange (filterKey v : string) (st : state) : state :=
  let newFilters := <[filterKey := v]> (filters st) in
  setTransactions (filterBy newFilters (allTransactions st))
    (setFilters newFilters st).

(** [categories.find(c => c.id === t.category_id)] *)
Definition findCategory (cats : list Category.t) (cid : option Z)
    : option Category.t :=
  List.find (fun c => nullable_id_eq cid (Some (Category.id c))) cats.

(** [parseFloat(t.amount_pkr || 0)], the base-currency amount. *)
Definition amount_base (t : Transaction.t) : number :=
  parseFloat (or_else (Transaction.amount_pkr t) (VNum (Fin 0))).

(** Summary stats: the reducer shared by [totalIncome] and
    [totalExpenses], then [netAmount]. *)
Definition totalOfType (ty : string) (cats : list Category.t)
    (l : list Transaction.t) : number :=
  fold_left
    (fun sum t =>
       match findCategory cats (Transaction.category_id t) with
       | Some category =>
           if String.eqb (Category.category_type category) ty
           then add sum (Math_abs (amount_base t))
           else sum
       | None => sum
       end)
    l (Fin 0).

Definition totalIncome (st : state) : number :=
  totalOfType "income" (categories st) (transactions st).

Definition totalExpenses (st : state) : number :=
  totalOfType "expense" (categories st) (transactions st).

Definition netAmount (st : state) : number :=
  sub (totalIncome st) (totalExpenses st).

(** Opening balance panel.  [openingBalance] is the amount the panel
    shows; [None]: no amount is shown. *)
Definition totalBeforeStart (l : list Transaction.t) : number :=
  fold_left (fun sum t => add sum (amount_base t)) l (Fin 0).

Definition accountOpeningBalance (a : Account.t) : number :=
  parseFloat (or_else (Account.opening_balance a) (VNum (Fin 0))).

Definition openingBalanceAccount (st : state) : option number :=
  let selected := parseInt (prop (filters st) "accountId") in
  match List.find (fun a => id_eq (Account.id a) selected) (accounts st) with
  | None => None
  | Some account =>
      let startDate := prop (filters st) "startDate" in
      let transactionsBeforeStart :=
        List.filter
          (fun t => id_eq (Transaction.account_id t) selected
                    && Date_lt (Transaction.transaction_date t) startDate)
          (allTransactions st) in
      Some (add (accountOpeningBalance account)
              (totalBeforeStart transactionsBeforeStart))
  end.

Definition openingBalanceAll (st : state) : number :=
  let startDate := prop (filters st) "startDate" in
  let transactionsBeforeStart :=
    List.filter
      (fun t => Date_lt (Transaction.transaction_date t) startDate)
      (allTransactions st) in
  let totalOpeningBalance :=
    fold_left (fun sum acc => add sum (accountOpeningBalance acc))
      (accounts st) (Fin 0) in
  add totalOpeningBalance (totalBeforeStart transactionsBeforeStart).

Definition openingBalance (st : state) : option number :=
  match transactions st with
  | [] => None
  | _ :: _ =>
      if truthy_string (prop (filters st) "startDate")
      then
        if truthy_string (prop (filters st) "accountId")
        then openingBalanceAccount st
        else Some (openingBalanceAll st)
      else None
  end.

(** What is rendered of the panel: nothing, or the box with its header
    and a body, which is empty ([None]) when the selected account is not
    found. *)
Inductive panel : Type :=
| NotRendered
| Rendered (body : option number).

Definition openingBalancePanel (st : state) : panel :=
  match transactions st with
  | [] => NotRendered
  | _ :: _ =>
      if truthy_string (prop (filters st) "startDate")
      then
        Rendered
          (if truthy_string (prop (filters st) "accountId")
           then openingBalanceAccount st
           else Some (openingBalanceAll st))
      else NotRendered
  end.

(** Balance impact preview of the transaction form. *)
Record counterEntry : Type := {
  counterpartyAccount : Account.t;
  counterpartyBalance : number;
  receiverAmount : number;
  counterpartyNewBalance : number
}.

Record impact : Type := {
  account : Account.t;
  category : Category.t;
  currentBalance : number;
  enteredAmount : number;
  actualAmount : number;
  isInterAccountTransfer : bool;
  newBalance : number;
  counterEntryOf : option counterEntry;
  insufficientBalance : bool
}.

Inductive preview : Type :=
| NoPreview
| SelectAccountAndCategory
| Impact (i : impact).

(** [actualAmount] and [isInterAccountTransfer] as the branch on the
    category type leaves them. *)
Definition transactionImpact (accs : list Account.t) (fd : formData)
    (ty : string) (entered : number) : number * bool :=
  if String.eqb ty "expense" then (neg (Math_abs entered), false)
  else if String.eqb ty "income" then (Math_abs entered, false)
  else if String.eqb ty "transfer" then
    let inter :=
      truthy_string (counterparty fd)
      && negb (String.eqb (counterparty fd) "External")
      && existsb (fun a => String.eqb (Account.name a) (counterparty fd))
           accs in
    if inter then (neg (Math_abs entered), inter) else (entered, inter)
  else (Fin 0, false).

Definition counterpartyPreview (accs : list Account.t) (fd : formData)
    (inter : bool) (entered : number) : option counterEntry :=
  if inter && truthy_string (counterparty fd) then
    match List.find (fun a => String.eqb (Account.name a) (counterparty fd))
            accs with
    | None => None
    | Some cp =>
        let balance :=
          parseFloat (or_else (Account.current_balance cp) (VNum (Fin 0))) in
        let receiver := Math_abs entered in
        Some {| counterpartyAccount := cp;
                counterpartyBalance := balance;
                receiverAmount := receiver;
                counterpartyNewBalance := add balance receiver |}
    end
  else None.

Definition balanceImpactPreview (st : state) : preview :=
  let fd := form st in
  if truthy (account_id fd)
     && negb (strict_eq (amount fd) (VStr ""))
     && negb (strict_eq (amount fd) (VNum (Fin 0)))
     && truthy (category_id fd)
  then
    match
      List.find (fun a => id_eq (Account.id a) (parseInt_value (account_id fd)))
        (accounts st),
      List.find
        (fun c => id_eq (Category.id c) (parseInt_value (category_id fd)))
        (categories st)
    with
    | Some acc, Some cat =>
        let current :=
          parseFloat (or_else (Account.current_balance acc) (VNum (Fin 0))) in
        let entered := parseFloat (amount fd) in
        let '(actual, inter) :=
          transactionImpact (accounts st) fd (Category.category_type cat)
            entered in
        let new := add current actual in
        Impact
          {| account := acc;
             category := cat;
             currentBalance := current;
             enteredAmount := entered;
             actualAmount := actual;
             isInterAccountTransfer := inter;
             newBalance := new;
             counterEntryOf :=
               counterpartyPreview (accounts st) fd inter entered;
             insufficientBalance := lt new (Fin 0) && lt actual (Fin 0) |}
    | _, _ => SelectAccountAndCategory
    end
  else NoPreview.

(** Name lookups of the table rows. *)
Definition getAccountName (st : state) (accountId : Z) : string :=
  match List.find (fun a => Account.id a =? accountId) (accounts st) with
  | Some acc => Account.name acc
  | None => "Unknown"
  end.

Definition getCategoryName (st : state) (categoryId : option Z) : string :=
  if falsy_id categoryId then "-"
  else
    match List.find (fun c => nullable_id_eq categoryId (Some (Category.id c)))
            (categories st) with
    | Some cat => Category.name cat
    | None => "Unknown"
    end.

Definition getCounterpartyDisplay (st : state) (cp : option string)
    : string :=
  match cp with
  | None => "-"
  | Some name =>
      if negb (truthy_string name) then "-"
      else if String.eqb name "External" then "External Party"
      else
        match List.find (fun a => String.eqb (Account.name a) name)
                (accounts st) with
        | Some acc => name ++ " (" ++ Account.account_type acc ++ ")"
        | None => name
        end
  end.

Definition closeModal (st : state) : state :=
  {| transactions := transactions st;
     allTransactions := allTransactions st;
     accounts := accounts st;
     categories := categories st;
     showModal := false;
     editingTransaction := None;
     filters := filters st;
     form := form st |}.

(** The "Clear All" button. *)
Definition defaultFilters : gmap string string :=
  <["accountId" := ""]> (<["categoryId" := ""]>
  (<["startDate" := ""]> (<["endDate" := ""]> ∅))).

Definition clearAll (st : state) : state :=
  setTransactions (allTransactions st) (setFilters defaultFilters st).

(** The test of the "Filters active" badge. *)
Definition filtersActive (st : state) : bool :=
  truthy_string (prop (filters st) "accountId")
  || truthy_string (prop (filters st) "categoryId")
  || truthy_string (prop (filters st) "startDate")
  || truthy_string (prop (filters st) "endDate").

(** The counters of the summary: [incomeTransactions.length] and
    [expenseTransactions.length]. *)
Definition countOfType (ty : string) (cats : list Category.t)
    (l : list Transaction.t) : nat :=
  length
    (List.filter
       (fun t =>
          match findCategory cats (Transaction.category_id t) with
          | Some cat => String.eqb (Category.category_type cat) ty
          | None => false
          end) l).

Definition incomeCount (st : state) : nat :=
  countOfType "income" (categories st) (transactions st).

Definition expenseCount (st : state) : nat :=
  countOfType "expense" (categories st) (transactions st).

(** State updates as an event handler issues them.  A handler runs in the
    render it was created in: every call in it reads that render's state;
    the updates issued at once are applied in order, then those of the
    [setTimeout] callbacks, in order. *)
Inductive update : Type :=
| SetFilters (f : gmap string string)
| SetTransactions (l : list Transaction.t).

Record call : Type := {
  atOnce : list update;
  inTimeout : list update
}.

Definition applyUpdate (st : state) (u : update) : state :=
  match u with
  | SetFilters f => setFilters f st
  | SetTransactions l => setTransactions l st
  end.

Definition runCalls (calls : list call) (st : state) : state :=
  fold_left applyUpdate (concat (map inTimeout calls))
    (fold_left applyUpdate (concat (map atOnce calls)) st).

(** One call of [handleFilterChange] in the render [st]. *)
Definition handleFilterChangeCall (filterKey v : string) (st : state)
    : call :=
  let newFilters := <[filterKey := v]> (filters st) in
  {| atOnce := [SetFilters newFilters];
     inTimeout :=
       [SetTransactions (filterBy newFilters (allTransactions st))] |}.

(** The "This Month" button: two calls of [handleFilterChange] in one
    handler. *)
Definition thisMonthClick (firstDay lastDay : string) (st : state) : state :=
  runCalls
    [ handleFilterChangeCall "startDate" firstDay st;
      handleFilterChangeCall "endDate" lastDay st ] st.

End Code.
End Transactions.

(** ** pages/Dashboard.jsx *)

Module Dashboard.
Import JS.

Record stats : Type := {
  totalCurrentBalance : number;
  totalIncome : number;
  totalExpenses : number;
  profitAndLoss : number
}.

Record transactionParams : Type := {
  limit : Z;
  start_date : option string;
  end_date : option string;
  account_id : option (option Z);
  team_id : option (option Z);
  category_id : option (option Z)
}.

(** [!transaction.category_id] *)
Definition no_category (cid : option Z) : bool :=
  match cid with
  | Some k => k =? 0
  | None => true
  end.

Definition when_set {A : Type} (s : string) (f : string -> A) : option A :=
  if truthy_string s then Some (f s) else None.

Definition buildParams (filters : gmap string string) : transactionParams :=
  {| limit := 1000;
     start_date := when_set (prop filters "startDate") (fun s => s);
     end_date := when_set (prop filters "endDate") (fun s => s);
     account_id := when_set (prop filters "accountId") parseInt;
     team_id := when_set (prop filters "teamId") parseInt;
     category_id := when_set (prop filters "categoryId") parseInt |}.

(** [Object.keys(currentFilters).some(key => currentFilters[key] &&
    currentFilters[key] !== '' && currentFilters[key] !== 'all')] *)
Definition isFiltered (currentFilters : gmap string string) : bool :=
  existsb
    (fun kv : string * string =>
       truthy_string (snd kv)
       && negb (String.eqb (snd kv) "")
       && negb (String.eqb (snd kv) "all"))
    (map_to_list currentFilters).

(** [transactions.slice(0, 10)] *)
Definition recentTransactions (l : list Transaction.t)
    : list Transaction.t :=
  firstn 10 l.

Section Code.
Context `{Host}.

(** [parseFloat(transaction.amount) || 0] *)
Definition amountOf (t : Transaction.t) : number :=
  or_else_number (parseFloat (Transaction.amount t)) (Fin 0).

(** The reducer of [totalExpenses] and of [totalIncome]; they differ in
    the category type they keep. *)
Definition totalOfType (ty : string) (categoriesData : list Category.t)
    (l : list Transaction.t) : number :=
  fold_left
    (fun sum transaction =>
       if no_category (Transaction.category_id transaction) then sum
       else
         match List.find
                 (fun cat => nullable_id_eq
                               (Transaction.category_id transaction)
                               (Some (Category.id cat)))
                 categoriesData with
         | None => sum
         | Some category =>
             if negb (String.eqb (Category.category_type category) ty)
             then sum
             else add sum (Math_abs (amountOf transaction))
         end)
    l (Fin 0).

(** [parseFloat(account.current_balance) || 0] *)
Definition balanceOf (a : Account.t) : number :=
  or_else_number (parseFloat (Account.current_balance a)) (Fin 0).

(** The statistics [loadDashboardData] stores, from the filter object and
    the three API answers it awaits. *)
Definition loadDashboardData (filters : gmap string string)
    (accountsData : list Account.t) (l : list Transaction.t)
    (categoriesData : list Category.t) : stats :=
  let balance :=
    if truthy_string (prop filters "accountId") then
      match List.find
              (fun acc => id_eq (Account.id acc)
                            (parseInt (prop filters "accountId")))
              accountsData with
      | Some filteredAccount => balanceOf filteredAccount
      | None => Fin 0
      end
    else
      fold_left (fun sum account => add sum (balanceOf account))
        accountsData (Fin 0) in
  let expenses := totalOfType "expense" categoriesData l in
  let income := totalOfType "income" categoriesData l in
  {| totalCurrentBalance := balance;
     totalIncome := income;
     totalExpenses := expenses;
     profitAndLoss := sub income expenses |}.

End Code.
End Dashboard.

(** ** pages/Categories.jsx *)

Module Categories.

Record typeOption : Type := {
  value : string;
  label : string
}.

Definition categoryTypes : list typeOption :=
  [ {| value := "income"; label := "Income" |};
    {| value := "expense"; label := "Expense" |} ].

Record formData : Type := {
  name : string;
  category_type : string;
  description : string
}.

Record state : Type := {
  categories : list Category.t;
  showModal : bool;
  editingCategory : option Category.t;
  form : formData
}.

Inductive request : Type :=
| Create (data : formData)
| Update (id : Z) (data : formData).

Definition emptyForm : formData :=
  {| name := ""; category_type := "income"; description := "" |}.

Definition initialState : state :=
  {| categories := [];
     showModal := false;
     editingCategory := None;
     form := emptyForm |}.

Definition openModal (c : option Category.t) (st : state) : state :=
  {| categories := categories st;
     showModal := true;
     editingCategory := c;
     form :=
       match c with
       | Some cat =>
           {| name := Category.name cat;
              category_type := Category.category_type cat;
              description := default "" (Category.description cat) |}
       | None => emptyForm
       end |}.

Definition closeModal (st : state) : state :=
  {| categories := categories st;
     showModal := false;
     editingCategory := None;
     form := emptyForm |}.

(** The [<select>] of the form renders one [<option>] per entry of
    [categoryTypes]; choosing the [i]-th of them runs [onChange] with that
    entry's value. *)
Definition chooseType (i : nat) (st : state) : state :=
  match categoryTypes !! i with
  | Some o =>
      {| categories := categories st;
         showModal := showModal st;
         editingCategory := editingCategory st;
         form :=
           {| name := name (form st);
              category_type := value o;
              description := description (form st) |} |}
  | None => st
  end.

Definition handleSubmit (st : state) : request :=
  match editingCategory st with
  | Some cat => Update (Category.id cat) (form st)
  | None => Create (form st)
  end.

(** The form after any number of choices in the type selector. *)
Definition choose (choices : list nat) (st : state) : state :=
  fold_left (fun s i => chooseType i s) choices st.

(** The category types the transaction form tells apart
    (Transactions.jsx, the hints next to the amount label). *)
Definition recognizedTypes : list string :=
  [ "income"; "expense"; "transfer" ].

End Categories.

(** ** components/MonthFilter.jsx *)

Module DashboardFilter.
Import JS.

Record range : Type := {
  start : string;
  end_ : string
}.

Definition initialFilters : gmap string string :=
  <["startDate" := ""]> (<["endDate" := ""]> (<["accountId" := ""]>
  (<["teamId" := ""]> (<["categoryId" := ""]> (<["timeRange" := "all"]> ∅))))).

Section Code.
Context `{Host}.

(** [d.toISOString().split('T')[0]] *)
Definition isoDate (d : Z) : string :=
  split_T_0 (toISOString d).

(** [now] is the time value of [new Date()]. *)
Definition getTimeRangeOptions (now : Z) : gmap string range :=
  let thisMonth := Date_local (getFullYear now) (getMonth now) 1 in
  let lastMonth := Date_local (getFullYear now) (getMonth now - 1) 1 in
  let lastMonthEnd := Date_local (getFullYear now) (getMonth now) 0 in
  let thisYear := Date_local (getFullYear now) 0 1 in
  let lastYear := Date_local (getFullYear now - 1) 0 1 in
  let lastYearEnd := Date_local (getFullYear now - 1) 11 31 in
  <["thisMonth" := {| start := isoDate thisMonth; end_ := isoDate now |}]>
  (<["lastMonth" :=
       {| start := isoDate lastMonth; end_ := isoDate lastMonthEnd |}]>
  (<["thisYear" := {| start := isoDate thisYear; end_ := isoDate now |}]>
  (<["lastYear" :=
       {| start := isoDate lastYear; end_ := isoDate lastYearEnd |}]> ∅))).

(** [timeRange] is the value of an option of the selector: a key of the
    table, ['all'] or ['custom'].  [ranges[timeRange]] is read as the
    lookup among the four keys of the table. *)
Definition handleTimeRangeChange (now : Z) (timeRange : string)
    (filters : gmap string string) : gmap string string :=
  let ranges := getTimeRangeOptions now in
  let newFilters := <["timeRange" := timeRange]> filters in
  if String.eqb timeRange "all" then
    <["endDate" := ""]> (<["startDate" := ""]> newFilters)
  else if String.eqb timeRange "custom" then
    newFilters
  else
    match ranges !! timeRange with
    | Some r =>
        <["endDate" := end_ r]> (<["startDate" := start r]> newFilters)
    | None => newFilters
    end.

Definition handleFilterChange (field v : string)
    (filters : gmap string string) : gmap string string :=
  let newFilters := <[field := v]> filters in
  if String.eqb field "startDate" || String.eqb field "endDate"
  then <["timeRange" := "custom"]> newFilters
  else newFilters.

Definition clearFilters : gmap string string :=
  initialFilters.

End Code.
End DashboardFilter.

(** ** services/api.js *)

Module Api.
Import JS.

(** A parameter with the default ['PKR']. *)
Definition currencyOrDefault (currency : value) : value :=
  match currency with
  | VUndefined => VStr "PKR"
  | _ => currency
  end.

Definition symbolOf (currency : value) : string :=
  if strict_eq currency (VStr "USD") then "$" else "Rs.".

Section Code.
Context `{Host}.

Definition formatCurrency (amount currencyArg : value) : string :=
  let currency := currencyOrDefault currencyArg in
  if isNaN amount || strict_eq amount VNull || strict_eq amount VUndefined
  then
    let symbol := symbolOf currency in
    symbol ++ "0.00"
  else
    let locale :=
      if strict_eq currency (VStr "USD") then "en-US" else "en-PK" in
    let currencyCode :=
      if strict_eq currency (VStr "USD") then "USD" else "PKR" in
    match NumberFormat_format locale currencyCode (ToNumber amount) with
    | Some s => s
    | None =>
        let symbol := symbolOf currency in
        symbol ++ toFixed (Math_abs (ToNumber amount)) 2
    end.

Definition formatCurrencyCompact (amount currencyArg : value) : string :=
  let currency := currencyOrDefault currencyArg in
  if isNaN amount || strict_eq amount VNull || strict_eq amount VUndefined
  then
    let symbol := symbolOf currency in
    symbol ++ "0"
  else
    let absAmount := Math_abs (ToNumber amount) in
    let symbol := symbolOf currency in
    let sign := if lt (ToNumber amount) (Fin 0) then "-" else "" in
    if ge absAmount (Fin 10000000) then
      sign ++ symbol ++ toFixed (div absAmount (Fin 10000000)) 1 ++ "Cr"
    else if ge absAmount (Fin 100000) then
      sign ++ symbol ++ toFixed (div absAmount (Fin 100000)) 1 ++ "L"
    else if ge absAmount (Fin 1000) then
      sign ++ symbol ++ toFixed (div absAmount (Fin 1000)) 1 ++ "K"
    else
      sign ++ symbol ++ toFixed absAmount 0.

End Code.
End Api.

(** ** Calendar dates as the API and the date inputs write them

    [YYYY-MM-DD], each field padded with zeros. *)

Module IsoDate.

Record t : Type := {
  year : N;
  month : N;
  day : N
}.

Definition digit (n : N) : ascii :=
  ascii_of_N (48 + n mod 10).

Definition two (n : N) : string :=
  String (digit (n / 10)) (String (digit n) EmptyString).

Definition four (n : N) : string :=
  String (digit (n / 10 / 10 / 10)) (String (digit (n / 10 / 10)) (two n)).

Definition render (d : t) : string :=
  four (year d) ++ "-" ++ two (month d) ++ "-" ++ two (day d).

Definition wellFormed (d : t) : Prop :=
  (year d < 10000 /\ month d < 100 /\ day d < 100)%N.

(** [a] is not after [b]. *)
Definition le (a b : t) : Prop :=
  (year a < year b
   \/ (year a = year b
       /\ (month a < month b \/ (month a = month b /\ day a <= day b))))%N.

End IsoDate.

(** ** The report aggregator in the words of the specification

    Totals are sums over the transactions whose matched category has a
    given type; the opening balance of an account as of a date is its
    converted opening balance plus the amounts of its transactions before
    that date, and for all accounts the sum of these. *)

Module Report.
Import JS.

Definition sum (l : list number) : number :=
  fold_right add (Fin 0) l.


(** A transaction satisfies every active filter: a filter is active when
    its field is not empty; dates are compared as strings, as the code
    does. *)
Definition satisfies (f : gmap string string) (t : Transaction.t) : Prop :=
  (prop f "accountId" <> "" ->
   parseInt (prop f "accountId") = Some (Transaction.account_id t))
  /\ (prop f "categoryId" <> "" ->
      exists k, Transaction.category_id t = Some k
                /\ parseInt (prop f "categoryId") = Some k)
  /\ (prop f "startDate" <> "" ->
      String.leb (prop f "startDate") (Transaction.transaction_date t) = true)
  /\ (prop f "endDate" <> "" ->
      String.leb (Transaction.transaction_date t) (prop f "endDate") = true).

(** The same as one test, to filter with. *)
Definition passes (f : gmap string string) (t : Transaction.t) : bool :=
  (negb (truthy_string (prop f "accountId"))
   || id_eq (Transaction.account_id t) (parseInt (prop f "accountId")))
  && (negb (truthy_string (prop f "categoryId"))
      || nullable_id_eq (Transaction.category_id t)
           (parseInt (prop f "categoryId")))
  && (negb (truthy_string (prop f "startDate"))
      || String.leb (prop f "startDate") (Transaction.transaction_date t))
  && (negb (truthy_string (prop f "endDate"))
      || String.leb (Transaction.transaction_date t) (prop f "endDate")).

Section Spec.
Context `{Host}.

(** The type of the category a transaction is matched with. *)
Definition categoryTypeOf (cats : list Category.t) (t : Transaction.t)
    : option string :=
  Category.category_type
    <$> Transactions.findCategory cats (Transaction.category_id t).

Definition hasType (ty : string) (cats : list Category.t)
    (t : Transaction.t) : bool :=
  match categoryTypeOf cats t with
  | Some ty' => String.eqb ty' ty
  | None => false
  end.

(** The total of one category type, of the signed amounts. *)
Definition signedTotal (ty : string) (cats : list Category.t)
    (l : list Transaction.t) : number :=
  sum (map Transactions.amount_base (List.filter (hasType ty cats) l)).

(** The total of one category type, of the absolute values of [f]. *)
Definition absTotal (f : Transaction.t -> number) (ty : string)
    (cats : list Category.t) (l : list Transaction.t) : number :=
  sum (map (fun t => Math_abs (f t)) (List.filter (hasType ty cats) l)).

(** The transactions with a category whose identifier is not 0. *)
Definition withCategory (l : list Transaction.t) : list Transaction.t :=
  List.filter
    (fun t => match Transaction.category_id t with
              | Some k => negb (k =? 0)
              | None => false
              end) l.









End Spec.
End Report.

(** ** A host to run the code on

    A small engine for the examples: decimal strings are read exactly,
    [toFixed] rounds half up, [Intl] is unavailable (the code then takes
    its fallback), and dates [YYYY-MM-DD] are placed on a grid of 31-day
    months, which orders them as the calendar does. *)

Module Sample.
Import JS.

Definition decDigit (c : ascii) : option Z :=
  let n := Z.of_N (N_of_ascii c) in
  if (48 <=? n) && (n <=? 57) then Some (n - 48) else None.

Fixpoint readFraction (s : string) (num : Z) (den : positive) : Q :=
  match s with
  | String c r =>
      match decDigit c with
      | Some d => readFraction r (num * 10 + d) (den * 10)
      | None => (num # den)%Q
      end
  | EmptyString => (num # den)%Q
  end.

Fixpoint readWhole (s : string) (num : Z) (seen : bool) : option Q :=
  match s with
  | String c r =>
      match decDigit c with
      | Some d => readWhole r (num * 10 + d) true
      | None =>
          if seen then
            if Ascii.eqb c "." then Some (readFraction r num 1)
            else Some (num # 1)%Q
          else None
      end
  | EmptyString => if seen then Some (num # 1)%Q else None
  end.

Definition readDecimal (s : string) : number :=
  let '(negative, digits) :=
    match s with
    | String "-" r => (true, r)
    | _ => (false, s)
    end in
  match readWhole digits 0 false with
  | Some q => Fin (Qred (if negative then (- q)%Q else q))
  | None => NaN
  end.

Definition pad (width : nat) (s : string) : string :=
  String.concat "" (repeat "0" (width - String.length s)) ++ s.

Definition showFixed (x : number) (d : nat) : string :=
  match x with
  | NaN => "NaN"
  | Fin q =>
      let scale := 10 ^ Z.of_nat d in
      let n := Qfloor (Qabs q * inject_Z scale + (1 # 2))%Q in
      let whole := pretty (n / scale) in
      let text :=
        match d with
        | O => whole
        | S _ => (whole ++ "." ++ pad d (pretty (n mod scale)))%string
        end in
      if Qle_bool 0 q || (n =? 0) then text else ("-" ++ text)%string
  end.

Definition grid (y m d : Z) : Z := (y * 12 + m) * 31 + (d - 1).

Definition readDate (s : string) : option Z :=
  match readDigits 10 (substring 0 4 s) None,
        readDigits 10 (substring 5 2 s) None,
        readDigits 10 (substring 8 2 s) None with
  | Some y, Some m, Some d =>
      if (String.length s =? 10)%nat
         && String.eqb (substring 4 1 s) "-"
         && String.eqb (substring 7 1 s) "-"
      then Some (grid y (m - 1) d) else None
  | _, _, _ => None
  end.

Definition showDate (t : Z) : string :=
  pad 4 (pretty (t / 372)) ++ "-" ++ pad 2 (pretty (t / 31 mod 12 + 1))
  ++ "-" ++ pad 2 (pretty (t mod 31 + 1)) ++ "T00:00:00.000Z".

Definition host : Host :=
  {| parseFloat_string := readDecimal;
     Number_string := readDecimal;
     toFixed := showFixed;
     NumberFormat_format := fun _ _ _ => None;
     Date_valueOf := readDate;
     Date_local := grid;
     getFullYear := fun t => t / 372;
     getMonth := fun t => t / 31 mod 12;
     toISOString := showDate |}.


(** Two accounts, three categories and a small ledger. *)
Definition cash : Account.t :=
  {| Account.id := 1;
     Account.name := "Cash";
     Account.account_type := "asset";
     Account.default_currency := "PKR";
     Account.opening_balance := VStr "1000.00";
     Account.current_balance := VStr "1300.00" |}.

Definition bank : Account.t :=
  {| Account.id := 2;
     Account.name := "Bank";
     Account.account_type := "asset";
     Account.default_currency := "PKR";
     Account.opening_balance := VStr "250.50";
     Account.current_balance := VNum (Fin 0) |}.

Definition salary : Category.t :=
  {| Category.id := 1;
     Category.name := "Salary";
     Category.category_type := "income";
     Category.description := None |}.

Definition rent : Category.t :=
  {| Category.id := 2;
     Category.name := "Rent";
     Category.category_type := "expense";
     Category.description := None |}.

Definition movement : Category.t :=
  {| Category.id := 3;
     Category.name := "Movement";
     Category.category_type := "transfer";
     Category.description := None |}.

Definition entry (i acc : Z) (amt date : string) (cat : option Z)
    : Transaction.t :=
  {| Transaction.id := i;
     Transaction.account_id := acc;
     Transaction.amount := VStr amt;
     Transaction.amount_pkr := VStr amt;
     Transaction.balance_after := VNull;
     Transaction.description := None;
     Transaction.transaction_date := date;
     Transaction.category_id := cat;
     Transaction.team_id := None;
     Transaction.counterparty := None;
     Transaction.currency := Some "PKR" |}.

Definition pay : Transaction.t := entry 1 1 "500.00" "2024-01-02" (Some 1).
Definition lease : Transaction.t := entry 2 1 "-200.00" "2024-01-01" (Some 2).
Definition move : Transaction.t := entry 3 2 "300.00" "2024-02-10" (Some 3).
Definition loose : Transaction.t := entry 4 1 "75.00" "2024-02-11" None.

Definition ledger : list Transaction.t := [pay; lease; move; loose].

Definition february : gmap string string :=
  <["accountId" := ""]> (<["categoryId" := ""]>
  (<["startDate" := "2024-02-01"]> (<["endDate" := "2024-02-29"]> ∅))).

Definition blank : Transactions.formData :=
  {| Transactions.account_id := VStr "";
     Transactions.amount := VStr "";
     Transactions.description := "";
     Transactions.transaction_date := "2024-02-15";
     Transactions.category_id := VStr "";
     Transactions.team_id := VStr "";
     Transactions.counterparty := "";
     Transactions.currency := "PKR" |}.

(** The form filled in for account 1: a category, an amount as typed and
    a counterparty. *)
Definition filled (cat amt counterparty : string) : Transactions.formData :=
  {| Transactions.account_id := VStr "1";
     Transactions.amount := VStr amt;
     Transactions.description := "";
     Transactions.transaction_date := "2024-02-15";
     Transactions.category_id := VStr cat;
     Transactions.team_id := VStr "";
     Transactions.counterparty := counterparty;
     Transactions.currency := "PKR" |}.

Definition page (f : gmap string string) (shown : list Transaction.t)
    (fd : Transactions.formData) : Transactions.state :=
  {| Transactions.transactions := shown;
     Transactions.allTransactions := ledger;
     Transactions.accounts := [cash; bank];
     Transactions.categories := [salary; rent; movement];
     Transactions.showModal := true;
     Transactions.editingTransaction := None;
     Transactions.filters := f;
     Transactions.form := fd |}.

(** An entry whose amount the API delivered as text that is no number. *)
Definition garbled : Transaction.t := entry 5 1 "n/a" "2024-02-12" (Some 1).

(** The page with one account selected. *)
Definition cashOnly : gmap string string := <["accountId" := "1"]> february.

(** A range whose start lies after its end. *)
Definition inverted : gmap string string :=
  <["accountId" := ""]> (<["categoryId" := ""]>
  (<["startDate" := "2024-03-01"]> (<["endDate" := "2024-02-01"]> ∅))).

(** A filter on an account that does not read as a number, and one on an
    account that is not loaded. *)
Definition noNumber : gmap string string := <["accountId" := "abc"]> february.
Definition notLoaded : gmap string string := <["accountId" := "9"]> february.


(** A category delivered with identifier 0 and an entry in it; an entry
    in dollars, whose amount is not its base amount. *)
Definition tips : Category.t :=
  {| Category.id := 0;
     Category.name := "Tips";
     Category.category_type := "income";
     Category.description := None |}.

Definition tip : Transaction.t := entry 6 1 "40.00" "2024-02-13" (Some 0).

Definition fee : Transaction.t :=
  {| Transaction.id := 7;
     Transaction.account_id := 1;
     Transaction.amount := VStr "10.00";
     Transaction.amount_pkr := VStr "2800.00";
     Transaction.balance_after := VNull;
     Transaction.description := None;
     Transaction.transaction_date := "2024-02-14";
     Transaction.category_id := Some 1;
     Transaction.team_id := None;
     Transaction.counterparty := None;
     Transaction.currency := Some "USD" |}.





(** An account whose balance the API delivered as text that is no
    number. *)
Definition stale : Account.t :=
  {| Account.id := 3;
     Account.name := "Stale";
     Account.account_type := "asset";
     Account.default_currency := "PKR";
     Account.opening_balance := VStr "0.00";
     Account.current_balance := VStr "n/a" |}.

(** The page showing the rows [shown], with the categories [cats]. *)
Definition showing (shown : list Transaction.t) (cats : list Category.t)
    : Transactions.state :=
  {| Transactions.transactions := shown;
     Transactions.allTransactions := shown;
     Transactions.accounts := [cash; bank];
     Transactions.categories := cats;
     Transactions.showModal := false;
     Transactions.editingTransaction := None;
     Transactions.filters := february;
     Transactions.form := blank |}.

End Sample.

(** * Properties *)

(** ** Numbers *)

Section NumberFacts.
Import JS.



Lemma truthy_string_true (s : string) : truthy_string s = true <-> s <> "".
Proof.
  unfold truthy_string. rewrite negb_true_iff.
  split.
  - intros Hs ->. now rewrite String.eqb_refl in Hs.
  - intros Hs. now apply String.eqb_neq.
Qed.

Lemma truthy_string_false (s : string) : truthy_string s = false <-> s = "".
Proof.
  unfold truthy_string. rewrite negb_false_iff. apply String.eqb_eq.
Qed.

End NumberFacts.

(** ** The classifier behind the balance impact preview *)

Section ClassifierFacts.
Import JS Transactions.
Context `{Host}.

(** What a rendered preview is made of: the account and the category the
    form selects, and the amounts computed from them. *)
Lemma preview_Impact_inv (st : state) (i : impact) :
  balanceImpactPreview st = Impact i ->
  exists acc cat,
    List.find (fun a => id_eq (Account.id a)
                          (parseInt_value (account_id (form st))))
      (accounts st) = Some acc
    /\ List.find (fun c => id_eq (Category.id c)
                             (parseInt_value (category_id (form st))))
         (categories st) = Some cat
    /\ account i = acc
    /\ category i = cat
    /\ enteredAmount i = parseFloat (amount (form st))
    /\ currentBalance i
       = parseFloat (or_else (Account.current_balance acc) (VNum (Fin 0)))
    /\ (actualAmount i, isInterAccountTransfer i)
       = transactionImpact (accounts st) (form st)
           (Category.category_type cat) (parseFloat (amount (form st)))
    /\ newBalance i = add (currentBalance i) (actualAmount i)
    /\ counterEntryOf i
       = counterpartyPreview (accounts st) (form st)
           (isInterAccountTransfer i) (parseFloat (amount (form st))).
Proof.
  unfold balanceImpactPreview.
  destruct (_ && _); [|discriminate].
  destruct (List.find _ (accounts st)) as [acc|]; [|discriminate].
  destruct (List.find _ (categories st)) as [cat|]; [|discriminate].
  destruct (transactionImpact _ _ _ _) as [actual inter] eqn:Himpact.
  intros [= <-]. exists acc, cat. simpl.
  repeat split; try reflexivity. now symmetry.
Qed.



Lemma transactionImpact_transfer accs fd (x : number) :
  transactionImpact accs fd "transfer" x =
  let inter :=
    truthy_string (counterparty fd)
    && negb (String.eqb (counterparty fd) "External")
    && existsb (fun a => String.eqb (Account.name a) (counterparty fd)) accs in
  if inter then (neg (Math_abs x), true) else (x, false).
Proof.
  unfold transactionImpact. simpl String.eqb. cbv iota zeta.
  now destruct (_ && _).
Qed.




End ClassifierFacts.

(** ** Sums of numbers

    Rational addition does not reduce fractions, so the laws of addition
    hold up to plain equality, [NaN] included. *)

Section SumFacts.
Import JS Report.

Lemma add_0_l (a : number) : add (Fin 0) a = a.
Proof.
  destruct a as [[n d]|]; [|reflexivity].
  unfold add, Qplus. simpl. do 2 f_equal. lia.
Qed.

Lemma add_0_r (a : number) : add a (Fin 0) = a.
Proof.
  destruct a as [[n d]|]; [|reflexivity].
  unfold add, Qplus. simpl. do 2 f_equal; lia.
Qed.

Lemma add_comm (a b : number) : add a b = add b a.
Proof.
  destruct a as [[n d]|], b as [[m e]|]; try reflexivity.
  unfold add, Qplus. simpl. do 2 f_equal; lia.
Qed.

Lemma add_assoc (a b c : number) : add a (add b c) = add (add a b) c.
Proof.
  destruct a as [[n d]|], b as [[m e]|], c as [[k f]|]; try reflexivity.
  unfold add, Qplus. simpl. do 2 f_equal.
  - rewrite !Pos2Z.inj_mul. ring.
  - apply Pos.mul_assoc.
Qed.

Lemma sum_cons (x : number) (l : list number) : sum (x :: l) = add x (sum l).
Proof. reflexivity. Qed.


Lemma fold_left_keep_sum {A : Type} (keep : A -> bool) (f : A -> number)
    (l : list A) (a : number) :
  fold_left (fun s x => if keep x then add s (f x) else s) l a
  = add a (sum (map f (List.filter keep l))).
Proof.
  revert a. induction l as [|x l IH]; intros a; simpl.
  - now rewrite add_0_r.
  - rewrite IH. destruct (keep x); simpl; [|reflexivity].
    now rewrite add_assoc.
Qed.

Lemma sum_map_ext {A : Type} (f g : A -> number) (l : list A) :
  (forall x, In x l -> f x = g x) -> sum (map f l) = sum (map g l).
Proof.
  induction l as [|x l IH]; intros Hfg; simpl; [reflexivity|].
  rewrite Hfg, IH; auto using in_eq, in_cons.
Qed.

End SumFacts.

(** ** Totals by category type *)

Section TotalsFacts.
Import JS Report.
Context `{Host}.

Lemma hasType_find (ty : string) (cats : list Category.t)
    (t : Transaction.t) :
  hasType ty cats t
  = match Transactions.findCategory cats (Transaction.category_id t) with
    | Some category => String.eqb (Category.category_type category) ty
    | None => false
    end.
Proof.
  unfold hasType, categoryTypeOf.
  now destruct (Transactions.findCategory _ _).
Qed.

Lemma categoryTypeOf_no_category (cats : list Category.t)
    (t : Transaction.t) :
  Transaction.category_id t = None -> categoryTypeOf cats t = None.
Proof.
  intros Hnone. unfold categoryTypeOf, Transactions.findCategory.
  rewrite Hnone. simpl.
  now induction cats as [|c cats IH].
Qed.

Lemma categoryTypeOf_unknown (cats : list Category.t) (t : Transaction.t)
    (k : Z) :
  Transaction.category_id t = Some k ->
  (forall c, In c cats -> Category.id c <> k) ->
  categoryTypeOf cats t = None.
Proof.
  intros Hk Hunknown. unfold categoryTypeOf, Transactions.findCategory.
  rewrite Hk.
  destruct (List.find _ cats) as [c|] eqn:Hfind; [|reflexivity].
  apply find_some in Hfind as [Hin Heq]. simpl in Heq.
  apply Z.eqb_eq in Heq. symmetry in Heq. now apply Hunknown in Hin.
Qed.

Lemma hasType_other (ty ty' : string) (cats : list Category.t)
    (t : Transaction.t) :
  categoryTypeOf cats t = None
  \/ (categoryTypeOf cats t = Some ty' /\ ty' <> ty) ->
  hasType ty cats t = false.
Proof.
  unfold hasType. intros [-> | [-> Hne]]; [reflexivity|].
  now apply String.eqb_neq.
Qed.

Lemma transactions_total_from (ty : string) (cats : list Category.t)
    (l : list Transaction.t) (a : number) :
  fold_left
    (fun sum t =>
       match Transactions.findCategory cats (Transaction.category_id t) with
       | Some category =>
           if String.eqb (Category.category_type category) ty
           then add sum (Math_abs (Transactions.amount_base t))
           else sum
       | None => sum
       end) l a
  = add a (absTotal Transactions.amount_base ty cats l).
Proof.
  unfold absTotal.
  rewrite <- (fold_left_keep_sum (hasType ty cats)
                (fun t => Math_abs (Transactions.amount_base t))).
  revert a. induction l as [|t l IH]; intros a; [reflexivity|].
  cbn [fold_left]. rewrite IH, hasType_find.
  now destruct (Transactions.findCategory _ _).
Qed.

Lemma transactions_totalOfType (ty : string) (cats : list Category.t)
    (l : list Transaction.t) :
  Transactions.totalOfType ty cats l
  = absTotal Transactions.amount_base ty cats l.
Proof.
  unfold Transactions.totalOfType.
  now rewrite transactions_total_from, add_0_l.
Qed.

(** The transactions the dashboard counts for a type: those with a
    truthy category identifier whose matched category has the type. *)
Lemma dashboard_totalOfType (ty : string) (cats : list Category.t)
    (l : list Transaction.t) :
  Dashboard.totalOfType ty cats l
  = sum (map (fun t => Math_abs (Dashboard.amountOf t))
           (List.filter
              (fun t => negb (Dashboard.no_category
                                (Transaction.category_id t))
                        && hasType ty cats t) l)).
Proof.
  unfold Dashboard.totalOfType.
  rewrite <- (add_0_l (sum _)).
  rewrite <- (fold_left_keep_sum _
                (fun t => Math_abs (Dashboard.amountOf t))).
  generalize (Fin 0). induction l as [|t l IH]; intros a; [reflexivity|].
  cbn [fold_left]. rewrite IH, hasType_find.
  unfold Transactions.findCategory.
  destruct (Dashboard.no_category _); [reflexivity|].
  destruct (List.find _ cats) as [c|]; [|reflexivity].
  now destruct (String.eqb _ ty).
Qed.

(** The transactions the dashboard takes to have a category: those whose
    category identifier is neither missing nor 0. *)
Lemma filter_categorized (ty : string) (cats : list Category.t)
    (l : list Transaction.t) :
  List.filter
    (fun t => negb (Dashboard.no_category (Transaction.category_id t))
              && hasType ty cats t) l
  = List.filter (hasType ty cats) (withCategory l).
Proof.
  unfold withCategory.
  induction l as [|t l IH]; [reflexivity|]. cbn [List.filter].
  destruct (Transaction.category_id t) as [k|];
    cbn [Dashboard.no_category]; [|exact IH].
  destruct (k =? 0); cbn [negb andb]; [exact IH|].
  cbn [List.filter]. now rewrite IH.
Qed.

(** On transactions whose [amount] reads as their [amount_base], the
    dashboard sums what the transactions page sums, over the transactions
    it takes to have a category. *)
Lemma dashboard_total_base (ty : string) (cats : list Category.t)
    (l : list Transaction.t) :
  (forall t, In t l -> Dashboard.amountOf t = Transactions.amount_base t) ->
  Dashboard.totalOfType ty cats l
  = absTotal Transactions.amount_base ty cats (withCategory l).
Proof.
  intros Hamount. rewrite dashboard_totalOfType, filter_categorized.
  unfold absTotal. apply sum_map_ext. intros t Ht.
  apply filter_In in Ht as [Ht _].
  apply filter_In in Ht as [Ht _]. now rewrite Hamount.
Qed.

(** C4, as the code has it.  The income total and the expense total are
    the sums of the absolute values of [amount_base] over the transactions
    whose matched category has type income and type expense; net is income
    minus expense; a transaction with no category, an unknown category or
    a transfer category is in neither sum.  The dashboard sums the field
    [amount] and takes a category identifier 0 for no category: where
    [amount] reads as [amount_base], its totals are these totals over the
    transactions whose category identifier is not 0. *)
Theorem totals_absolute_by_type :
  (forall st : Transactions.state,
     Transactions.totalIncome st
     = absTotal Transactions.amount_base "income"
         (Transactions.categories st) (Transactions.transactions st)
     /\ Transactions.totalExpenses st
        = absTotal Transactions.amount_base "expense"
            (Transactions.categories st) (Transactions.transactions st)
     /\ Transactions.netAmount st
        = sub (Transactions.totalIncome st) (Transactions.totalExpenses st))
  /\ (forall filters accountsData l cats,
        (forall t, In t l ->
                   Dashboard.amountOf t = Transactions.amount_base t) ->
        let s := Dashboard.loadDashboardData filters accountsData l cats in
        Dashboard.totalIncome s
        = absTotal Transactions.amount_base "income" cats
            (withCategory l)
        /\ Dashboard.totalExpenses s
           = absTotal Transactions.amount_base "expense" cats
               (withCategory l)
        /\ Dashboard.profitAndLoss s
           = sub (Dashboard.totalIncome s) (Dashboard.totalExpenses s))
  /\ (forall cats t,
        Transaction.category_id t = None
        \/ (exists k, Transaction.category_id t = Some k
                      /\ forall c, In c cats -> Category.id c <> k)
        \/ categoryTypeOf cats t = Some "transfer" ->
        hasType "income" cats t = false
        /\ hasType "expense" cats t = false).
Proof.
  split; [|split].
  - intros st. split; [|split].
    + apply transactions_totalOfType.
    + apply transactions_totalOfType.
    + reflexivity.
  - intros filters accountsData l cats Hamount s. subst s.
    split; [|split].
    + now apply dashboard_total_base.
    + now apply dashboard_total_base.
    + reflexivity.
  - intros cats t [Hnone | [(k & Hk & Hunknown) | Htransfer]].
    + apply (categoryTypeOf_no_category cats) in Hnone.
      split; apply (hasType_other _ ""); now left.
    + apply (categoryTypeOf_unknown cats t k Hk) in Hunknown.
      split; apply (hasType_other _ ""); now left.
    + split; apply (hasType_other _ "transfer"); right;
        (split; [assumption | discriminate]).
Qed.

End TotalsFacts.

(** ** Opening balance as of a date *)

Section OpeningBalanceFacts.
Import JS Report.
Context `{Host}.




End OpeningBalanceFacts.

(** ** String order on dates *)

Section IsoFacts.
Import IsoDate.

Lemma compare_digit (a b : N) :
  CompareSpec (a mod 10 = b mod 10)%N (a mod 10 < b mod 10)%N
    (b mod 10 < a mod 10)%N (Ascii.compare (digit a) (digit b)).
Proof.
  unfold Ascii.compare, digit.
  pose proof (N.mod_lt a 10) as Ha. pose proof (N.mod_lt b 10) as Hb.
  rewrite !N_ascii_embedding by lia.
  destruct (N.compare_spec (48 + a mod 10) (48 + b mod 10));
    constructor; lia.
Qed.

Ltac digits n :=
  pose proof (N.div_mod n 10 ltac:(discriminate));
  pose proof (N.mod_lt n 10 ltac:(discriminate)).

Ltac forget_digits :=
  repeat match goal with
         | H : context [N.modulo ?a ?b] |- _ =>
             generalize dependent (N.modulo a b); intros
         | H : context [N.div ?a ?b] |- _ =>
             generalize dependent (N.div a b); intros
         end.

(** On written dates the order of strings is the order of the calendar. *)
Lemma render_order (a b : t) :
  wellFormed a -> wellFormed b ->
  (String.leb (render a) (render b) = true <-> le a b).
Proof.
  destruct a as [y m d], b as [y' m' d'].
  unfold wellFormed, le, render, four, two, String.leb.
  cbn [year month day]. cbv [append]. cbn [String.compare].
  intros (Hy & Hm & Hd) (Hy' & Hm' & Hd').
  digits y; digits (y / 10)%N; digits (y / 10 / 10)%N;
    digits (y / 10 / 10 / 10)%N.
  digits y'; digits (y' / 10)%N; digits (y' / 10 / 10)%N;
    digits (y' / 10 / 10 / 10)%N.
  digits m; digits (m / 10)%N. digits m'; digits (m' / 10)%N.
  digits d; digits (d / 10)%N. digits d'; digits (d' / 10)%N.
  repeat match goal with
         | |- context [Ascii.compare (digit ?u) (digit ?v)] =>
             destruct (compare_digit u v)
         | |- context [Ascii.compare "-" "-"] =>
             change (Ascii.compare "-" "-") with Eq; cbv iota
         end;
    (split; intros Hcase;
     [ first [discriminate Hcase | forget_digits; lia]
     | first [reflexivity | exfalso; forget_digits; lia] ]).
Qed.

Lemma render_not_empty (a : t) : render a <> "".
Proof. unfold render, four. cbv [append]. discriminate. Qed.

End IsoFacts.

(** ** The transaction list filters *)

Section FilterFacts.
Import JS Report.
Context `{Host}.

(** An optional filter step is a filter by a weaker test. *)
Lemma filter_when {A : Type} (active : bool) (p : A -> bool) (l : list A) :
  (if active then List.filter p l else l)
  = List.filter (fun x => negb active || p x) l.
Proof.
  destruct active; cbn [negb orb]; [reflexivity|].
  induction l as [|x l IH]; [reflexivity|].
  cbn [List.filter]. now rewrite <- IH.
Qed.

Lemma filter_twice {A : Type} (p q : A -> bool) (l : list A) :
  List.filter q (List.filter p l) = List.filter (fun x => p x && q x) l.
Proof.
  induction l as [|x l IH]; [reflexivity|].
  cbn [List.filter]. destruct (p x); cbn [andb List.filter]; rewrite IH;
    reflexivity.
Qed.

Lemma filterBy_passes (f : gmap string string) (l : list Transaction.t) :
  Transactions.filterBy f l = List.filter (passes f) l.
Proof.
  unfold Transactions.filterBy. cbv zeta.
  rewrite !filter_when, !filter_twice.
  apply filter_ext. intros t. unfold passes. now rewrite !andb_assoc.
Qed.

Lemma when_active (s : string) (b : bool) (P : Prop) :
  (b = true <-> P) ->
  (negb (truthy_string s) || b = true <-> (s <> "" -> P)).
Proof.
  intros Hb. rewrite orb_true_iff, negb_true_iff, truthy_string_false.
  destruct (string_dec s "") as [-> | Hs]; split; intros Hp.
  - congruence.
  - now left.
  - intros _. destruct Hp as [|Hp]; [contradiction|]. now apply Hb.
  - right. apply Hb. now apply Hp.
Qed.

Lemma id_eq_true (i : Z) (n : option Z) : id_eq i n = true <-> n = Some i.
Proof.
  destruct n as [k|]; cbn [id_eq]; [|split; discriminate].
  rewrite Z.eqb_eq. split; congruence.
Qed.

Lemma nullable_id_eq_true (i n : option Z) :
  nullable_id_eq i n = true <-> exists k, i = Some k /\ n = Some k.
Proof.
  destruct i as [c|]; cbn [nullable_id_eq].
  - rewrite id_eq_true. split.
    + intros ->. now exists c.
    + now intros (k & [= ->] & ->).
  - split; [discriminate|]. now intros (k & ? & _).
Qed.

Lemma passes_satisfies (f : gmap string string) (t : Transaction.t) :
  passes f t = true <-> satisfies f t.
Proof.
  unfold passes, satisfies. rewrite !andb_true_iff.
  pose proof (when_active (prop f "accountId") _ _
                (id_eq_true (Transaction.account_id t)
                   (parseInt (prop f "accountId")))) as Hacc.
  pose proof (when_active (prop f "categoryId") _ _
                (nullable_id_eq_true (Transaction.category_id t)
                   (parseInt (prop f "categoryId")))) as Hcat.
  pose proof (when_active (prop f "startDate")
                (String.leb (prop f "startDate")
                   (Transaction.transaction_date t)) _
                (iff_refl _)) as Hstart.
  pose proof (when_active (prop f "endDate")
                (String.leb (Transaction.transaction_date t)
                   (prop f "endDate")) _
                (iff_refl _)) as Hend.
  tauto.
Qed.

(** C9. [applyFilters] shows exactly the transactions of its input that
    satisfy every active filter (selected account, selected category,
    start date <= transaction date <= end date), in the order of the
    input, and leaves the list it filters from as it was. *)
Theorem applyFilters_exact (st : Transactions.state)
    (arg : option (list Transaction.t)) :
  let input := default (Transactions.allTransactions st) arg in
  let st' := Transactions.applyFilters arg st in
  (exists keep : Transaction.t -> bool,
     (forall t, keep t = true <-> satisfies (Transactions.filters st) t)
     /\ Transactions.transactions st' = List.filter keep input)
  /\ (forall t, In t (Transactions.transactions st')
                <-> In t input /\ satisfies (Transactions.filters st) t)
  /\ sublist (Transactions.transactions st') input
  /\ Transactions.allTransactions st' = Transactions.allTransactions st
  /\ Transactions.filters st' = Transactions.filters st
  /\ (forall t first last date,
        IsoDate.wellFormed first -> IsoDate.wellFormed last ->
        IsoDate.wellFormed date ->
        prop (Transactions.filters st) "startDate" = IsoDate.render first ->
        prop (Transactions.filters st) "endDate" = IsoDate.render last ->
        Transaction.transaction_date t = IsoDate.render date ->
        In t (Transactions.transactions st') ->
        IsoDate.le first date /\ IsoDate.le date last).
Proof.
  intros input st'. subst input st'.
  unfold Transactions.applyFilters. cbn [Transactions.transactions
    Transactions.setTransactions Transactions.allTransactions
    Transactions.filters].
  rewrite filterBy_passes.
  split; [|split; [|split; [|split; [|split]]]]; try reflexivity.
  - exists (passes (Transactions.filters st)). split; [|reflexivity].
    intros t. apply passes_satisfies.
  - intros t. rewrite filter_In, passes_satisfies. reflexivity.
  - generalize (default (Transactions.allTransactions st) arg).
    intros l. induction l as [|t l IH]; cbn [List.filter].
    + constructor.
    + destruct (passes _ t); now constructor.
  - intros t first last date Hfirst Hlast Hdate Hstart Hend Ht Hin.
    apply filter_In in Hin as [_ Hpass].
    apply passes_satisfies in Hpass as (_ & _ & Hfrom & Hto).
    rewrite Hstart, Ht in Hfrom. rewrite Hend, Ht in Hto.
    split.
    + apply render_order; auto using render_not_empty.
    + apply render_order; auto using render_not_empty.
Qed.

End FilterFacts.

(** ** The dashboard filter state *)

Section DashboardFilterFacts.
Import JS DashboardFilter.
Context `{Host}.

Lemma prop_insert_eq (o : gmap string string) (k v : string) :
  prop (<[k := v]> o) k = v.
Proof. unfold prop. now rewrite lookup_insert_eq. Qed.

Lemma prop_insert_ne (o : gmap string string) (k k' v : string) :
  k <> k' -> prop (<[k := v]> o) k' = prop o k'.
Proof. intros Hne. unfold prop. now rewrite lookup_insert_ne. Qed.

(** The bounds [getTimeRangeOptions] computes for the named ranges. *)
Lemma getTimeRangeOptions_named (now : Z) :
  let year := getFullYear now in
  let month := getMonth now in
  getTimeRangeOptions now !! "thisMonth"
  = Some {| start := isoDate (Date_local year month 1);
            end_ := isoDate now |}
  /\ getTimeRangeOptions now !! "lastMonth"
     = Some {| start := isoDate (Date_local year (month - 1) 1);
               end_ := isoDate (Date_local year month 0) |}
  /\ getTimeRangeOptions now !! "thisYear"
     = Some {| start := isoDate (Date_local year 0 1);
               end_ := isoDate now |}
  /\ getTimeRangeOptions now !! "lastYear"
     = Some {| start := isoDate (Date_local (year - 1) 0 1);
               end_ := isoDate (Date_local (year - 1) 11 31) |}.
Proof.
  unfold getTimeRangeOptions. cbv zeta.
  repeat split;
    repeat (first [ rewrite lookup_insert_eq; reflexivity
                  | rewrite lookup_insert_ne by discriminate ]).
Qed.

Lemma handleTimeRangeChange_named (now : Z) (timeRange : string)
    (r : range) (filters : gmap string string) :
  timeRange <> "all" ->
  timeRange <> "custom" ->
  getTimeRangeOptions now !! timeRange = Some r ->
  let f := handleTimeRangeChange now timeRange filters in
  prop f "startDate" = start r
  /\ prop f "endDate" = end_ r
  /\ prop f "timeRange" = timeRange.
Proof.
  intros Hall Hcustom Hrange. unfold handleTimeRangeChange. cbv zeta.
  apply String.eqb_neq in Hall, Hcustom. rewrite Hall, Hcustom, Hrange.
  rewrite prop_insert_eq.
  rewrite (prop_insert_ne _ "endDate" "startDate") by discriminate.
  rewrite prop_insert_eq.
  rewrite !(prop_insert_ne _ _ "timeRange") by discriminate.
  now rewrite prop_insert_eq.
Qed.

(** C10. A manual change of [startDate] or of [endDate] sets [timeRange]
    to 'custom'; choosing 'all' empties both dates; choosing thisMonth,
    lastMonth, thisYear or lastYear sets both dates to the bounds
    computed for that range. *)
Theorem dashboard_filter_time_range (now : Z) (v : string)
    (filters : gmap string string) :
  (prop (handleFilterChange "startDate" v filters) "timeRange" = "custom"
   /\ prop (handleFilterChange "startDate" v filters) "startDate" = v)
  /\ (prop (handleFilterChange "endDate" v filters) "timeRange" = "custom"
      /\ prop (handleFilterChange "endDate" v filters) "endDate" = v)
  /\ (prop (handleTimeRangeChange now "all" filters) "startDate" = ""
      /\ prop (handleTimeRangeChange now "all" filters) "endDate" = ""
      /\ prop (handleTimeRangeChange now "all" filters) "timeRange" = "all")
  /\ Forall
       (fun name =>
          exists r,
            getTimeRangeOptions now !! name = Some r
            /\ prop (handleTimeRangeChange now name filters) "startDate"
               = start r
            /\ prop (handleTimeRangeChange now name filters) "endDate"
               = end_ r
            /\ prop (handleTimeRangeChange now name filters) "timeRange"
               = name)
       ["thisMonth"; "lastMonth"; "thisYear"; "lastYear"].
Proof.
  replace (handleFilterChange "startDate" v filters)
    with (<["timeRange" := "custom"]> (<["startDate" := v]> filters))
    by reflexivity.
  replace (handleFilterChange "endDate" v filters)
    with (<["timeRange" := "custom"]> (<["endDate" := v]> filters))
    by reflexivity.
  replace (handleTimeRangeChange now "all" filters)
    with (<["endDate" := ""]> (<["startDate" := ""]>
            (<["timeRange" := "all"]> filters)))
    by reflexivity.
  split; [|split; [|split]].
  - split; [apply prop_insert_eq|].
    rewrite prop_insert_ne by discriminate. apply prop_insert_eq.
  - split; [apply prop_insert_eq|].
    rewrite prop_insert_ne by discriminate. apply prop_insert_eq.
  - split; [|split].
    + rewrite prop_insert_ne by discriminate. apply prop_insert_eq.
    + apply prop_insert_eq.
    + rewrite !prop_insert_ne by discriminate. apply prop_insert_eq.
  - destruct (getTimeRangeOptions_named now) as (Hm & Hlm & Hy & Hly).
    repeat constructor; eexists; (split; [eassumption|]);
      apply handleTimeRangeChange_named; (discriminate || assumption).
Qed.

End DashboardFilterFacts.

(** ** Category types *)

Section CategoryFacts.
Import Categories.

Lemma chooseType_offered (i : nat) (st : state) :
  category_type (form (chooseType i st)) = category_type (form st)
  \/ In (category_type (form (chooseType i st))) (map value categoryTypes).
Proof.
  unfold chooseType.
  destruct (categoryTypes !! i) as [o|] eqn:Hi; [|now left].
  right. cbn [form category_type]. apply in_map.
  apply list_elem_of_In. now apply list_elem_of_lookup_2 in Hi.
Qed.

Lemma choose_type (choices : list nat) (st : state) :
  category_type (form (choose choices st)) = category_type (form st)
  \/ In (category_type (form (choose choices st))) (map value categoryTypes).
Proof.
  unfold choose. revert st.
  induction choices as [|i choices IH]; intros st; [now left|].
  cbn [fold_left]. destruct (IH (chooseType i st)) as [Hsame | Hin].
  - rewrite Hsame. apply chooseType_offered.
  - now right.
Qed.

Lemma choose_editing (choices : list nat) (st : state) :
  editingCategory (choose choices st) = editingCategory st.
Proof.
  unfold choose. revert st.
  induction choices as [|i choices IH]; intros st; [reflexivity|].
  cbn [fold_left]. rewrite IH. unfold chooseType.
  now destruct (categoryTypes !! i).
Qed.

(** C6, as the code has it.  The category form offers income and
    expense, both among the three recognized types; a category created
    with the form has one of these two types, and an edited category keeps
    its type or takes one of the two. *)
Theorem category_form_types :
  map value categoryTypes = ["income"; "expense"]
  /\ (forall ty, In ty (map value categoryTypes) -> In ty recognizedTypes)
  /\ (forall choices st,
        let st' := choose choices (openModal None st) in
        handleSubmit st' = Create (form st')
        /\ In (category_type (form st')) ["income"; "expense"])
  /\ (forall choices st c,
        let st' := choose choices (openModal (Some c) st) in
        handleSubmit st' = Update (Category.id c) (form st')
        /\ (category_type (form st') = Category.category_type c
            \/ In (category_type (form st')) ["income"; "expense"])).
Proof.
  split; [reflexivity|split; [|split]].
  - intros ty [<- | [<- | []]]; cbn; auto.
  - intros choices st st'. subst st'. split.
    + unfold handleSubmit. now rewrite choose_editing.
    + destruct (choose_type choices (openModal None st)) as [-> | Hin].
      * now left.
      * exact Hin.
  - intros choices st c st'. subst st'. split.
    + unfold handleSubmit. now rewrite choose_editing.
    + exact (choose_type choices (openModal (Some c) st)).
Qed.

End CategoryFacts.

(** The claim as worded fails at 'transfer': it is a recognized type that
    the type selector does not offer, whatever is chosen. *)
Lemma transfer_not_offered :
  In "transfer" Categories.recognizedTypes
  /\ ~ In "transfer" (map Categories.value Categories.categoryTypes)
  /\ ~ (forall ty, In ty Categories.recognizedTypes ->
                   In ty (map Categories.value Categories.categoryTypes))
  /\ (forall choices,
        Categories.category_type
          (Categories.form
             (Categories.choose choices
                (Categories.openModal None Categories.initialState)))
        <> "transfer").
Proof.
  assert (Hnot : ~ In "transfer"
                     (map Categories.value Categories.categoryTypes)).
  { cbn. intros [Hi | [He | []]]; discriminate. }
  split; [cbn; auto|]. split; [exact Hnot|]. split.
  - intros Hall. apply Hnot, Hall. cbn. auto.
  - intros choices Htransfer.
    destruct (choose_type choices
                (Categories.openModal None Categories.initialState))
      as [Hsame | Hin].
    + rewrite Htransfer in Hsame. discriminate.
    + rewrite Htransfer in Hin. contradiction.
Qed.

(** ** The amount of a submitted transaction *)

Section AmountFacts.
Import JS Transactions.
Context `{Host}.

Lemma amountInputValid_nonneg (v : value) :
  amountInputValid v = true ->
  exists q, parseFloat v = Fin q /\ (0 <= q)%Q.
Proof.
  unfold amountInputValid. intros Hvalid.
  assert (Hnum : match parseFloat v with
                 | Fin q => Qle_bool 0 q
                            && (Zpos (Qden (Qred (q * 100))) =? 1)
                 | NaN => false
                 end = true).
  { destruct v as [| |n|s]; try exact Hvalid.
    destruct s as [|c s]; [discriminate|exact Hvalid]. }
  destruct (parseFloat v) as [q|]; [|discriminate].
  apply andb_true_iff in Hnum as [Hle _].
  exists q. split; [reflexivity|]. now apply Qle_bool_iff.
Qed.

(** C7. A transaction submitted from the form carries a non-negative
    amount: the form is accepted only with an amount that is a number at
    least 0, and a transaction opened for editing shows the absolute value
    of its stored amount. *)
Theorem submitted_amount_nonneg :
  (forall st r,
     submitForm st = Some r ->
     exists q, data_amount (dataOf r) = Fin q /\ (0 <= q)%Q)
  /\ (forall today tr st,
        amount (form (openModal today (Some tr) st))
        = VNum (Math_abs (ToNumber (Transaction.amount tr)))
        /\ forall x, ToNumber (Transaction.amount tr) = Fin x ->
             amount (form (openModal today (Some tr) st)) = VNum (Fin (Qabs x))
             /\ (0 <= Qabs x)%Q).
Proof.
  split.
  - intros st r. unfold submitForm, checkValidity.
    destruct (_ && _) eqn:Hvalid; [|discriminate].
    intros [= <-].
    rewrite !andb_true_iff in Hvalid.
    destruct Hvalid as [[[_ Hamount] _] _].
    apply amountInputValid_nonneg in Hamount as (q & Hq & Hle).
    exists q. split; [|assumption].
    unfold handleSubmit. now destruct (editingTransaction st).
  - intros today tr st. split; [reflexivity|].
    intros x Hx. cbn [openModal form amount]. rewrite Hx.
    split; [reflexivity|]. apply Qabs_nonneg.
Qed.

End AmountFacts.

(** ** Currency formatting of missing amounts *)

Section FormatFacts.
Import JS Api.
Context `{Host}.

(** C8. For an amount that is [NaN], [null] or [undefined] and any
    currency, [formatCurrency] returns the currency symbol followed by
    "0.00" and [formatCurrencyCompact] the symbol followed by "0"; both
    return, no call that could throw is reached. *)
Theorem format_missing_amount (amount currency : value) :
  amount = VNum NaN \/ amount = VNull \/ amount = VUndefined ->
  let symbol := symbolOf (currencyOrDefault currency) in
  formatCurrency amount currency = (symbol ++ "0.00")%string
  /\ formatCurrencyCompact amount currency = (symbol ++ "0")%string
  /\ (symbol = "$" \/ symbol = "Rs.")
  /\ (symbol = "$" <-> currency = VStr "USD").
Proof.
  intros Hmissing symbol. subst symbol.
  assert (Hguard : isNaN amount || strict_eq amount VNull
                   || strict_eq amount VUndefined = true)
    by (destruct Hmissing as [-> | [-> | ->]]; reflexivity).
  unfold formatCurrency, formatCurrencyCompact. rewrite Hguard.
  split; [reflexivity|]. split; [reflexivity|].
  unfold symbolOf, currencyOrDefault.
  destruct currency as [| |n|s]; cbn [strict_eq];
    try (split; [now right|split; discriminate]).
  - destruct n; (split; [now right|split; discriminate]).
  - destruct (String.eqb_spec s "USD") as [-> | Hs].
    + split; [now left|]. split; reflexivity.
    + split; [now right|]. split; [discriminate|]. intros [= ->].
      contradiction.
Qed.

End FormatFacts.

(** ** The code on the sample ledger *)

Section Examples.
Import JS Sample.




(** On the whole ledger: income 500, expenses 200, on the page and on
    the dashboard; the entry without a category and the transfer are in
    neither total.  With the entry of category 0 added, the dashboard
    still reports 500. *)
Lemma totals_absolute_by_type_witness :
  (@Transactions.totalIncome host (page february ledger blank) = Fin 500
   /\ @Transactions.totalExpenses host (page february ledger blank)
      = Fin 200)
  /\ (Dashboard.totalIncome
        (@Dashboard.loadDashboardData host february [cash; bank] ledger
           [salary; rent; movement]) = Fin 500
      /\ Dashboard.totalExpenses
           (@Dashboard.loadDashboardData host february [cash; bank] ledger
              [salary; rent; movement]) = Fin 200)
  /\ Dashboard.totalIncome
       (@Dashboard.loadDashboardData host february [cash; bank]
          (ledger ++ [tip]) [salary; rent; movement; tips]) = Fin 500
  /\ Report.hasType "income" [salary; rent; movement] loose = false
  /\ Report.hasType "expense" [salary; rent; movement] move = false.
Proof.
  destruct (@totals_absolute_by_type host) as (Hpage & Hboard & Hskip).
  destruct (Hpage (page february ledger blank)) as (Hincome & Hexpense & _).
  assert (Hamount : forall t, In t (ledger ++ [tip]) ->
                      @Dashboard.amountOf host t
                      = @Transactions.amount_base host t)
    by (intros t [<- | [<- | [<- | [<- | [<- | []]]]]];
        vm_compute; reflexivity).
  assert (Hamount' : forall t, In t ledger ->
                       @Dashboard.amountOf host t
                       = @Transactions.amount_base host t)
    by (intros t Ht; apply Hamount, in_or_app; now left).
  destruct (Hboard february [cash; bank] ledger [salary; rent; movement]
              Hamount') as (Hincome' & Hexpense' & _).
  destruct (Hboard february [cash; bank] (ledger ++ [tip])
              [salary; rent; movement; tips] Hamount) as (Htip & _ & _).
  split; [|split; [|split; [|split]]].
  - split; (etransitivity; [eassumption | vm_compute; reflexivity]).
  - split; (etransitivity; [eassumption | vm_compute; reflexivity]).
  - etransitivity; [eassumption | vm_compute; reflexivity].
  - apply (Hskip [salary; rent; movement] loose). left. reflexivity.
  - apply (Hskip [salary; rent; movement] move). right. right. reflexivity.
Defined.

(** The claim as worded fails on the ledger: the expense total the page
    shows is 200, the sum of [amount_base] over the expense transactions
    is -200; on the dashboard alike.  The dashboard departs from it in two
    more ways: an income entry whose category has identifier 0 counts 40
    on the page and nothing on the dashboard, and an entry of 10 dollars
    worth 2800 in the base currency counts 2800 on the page and 10 on the
    dashboard. *)
Lemma totals_signed_counterexample :
  @Transactions.totalExpenses host (page february ledger blank) = Fin 200
  /\ @Report.signedTotal host "expense" [salary; rent; movement] ledger
     = Fin (-200)
  /\ ~ num_eq (@Transactions.totalExpenses host (page february ledger blank))
         (@Report.signedTotal host "expense" [salary; rent; movement] ledger)
  /\ Dashboard.totalExpenses
       (@Dashboard.loadDashboardData host february [cash; bank] ledger
          [salary; rent; movement]) = Fin 200
  /\ (@Report.signedTotal host "income" [tips] [tip] = Fin 40
      /\ @Transactions.totalIncome host (showing [tip] [tips]) = Fin 40
      /\ Dashboard.totalIncome
           (@Dashboard.loadDashboardData host february [cash; bank] [tip]
              [tips]) = Fin 0)
  /\ (@Report.signedTotal host "income" [salary] [fee] = Fin 2800
      /\ @Transactions.totalIncome host (showing [fee] [salary]) = Fin 2800
      /\ Dashboard.totalIncome
           (@Dashboard.loadDashboardData host february [cash; bank] [fee]
              [salary]) = Fin 10).
Proof.
  split; [vm_compute; reflexivity|].
  split; [vm_compute; reflexivity|].
  split; [vm_compute; discriminate|].
  split; [vm_compute; reflexivity|].
  split; (split; [|split]); vm_compute; reflexivity.
Defined.



(** The February filter keeps the two February entries, in order; the
    first of them lies between 1 and 29 February. *)
Lemma applyFilters_exact_witness :
  Transactions.transactions
    (Transactions.applyFilters None (page february [] blank))
  = [move; loose]
  /\ sublist [move; loose] ledger
  /\ Transactions.allTransactions
       (Transactions.applyFilters None (page february [] blank)) = ledger
  /\ IsoDate.le {| IsoDate.year := 2024; IsoDate.month := 2;
                   IsoDate.day := 1 |}
       {| IsoDate.year := 2024; IsoDate.month := 2; IsoDate.day := 10 |}.
Proof.
  destruct (applyFilters_exact (page february [] blank) None)
    as (_ & _ & Hsub & Hall & _ & Hrange).
  split; [vm_compute; reflexivity|].
  split; [exact Hsub|]. split; [exact Hall|].
  apply (Hrange move
           {| IsoDate.year := 2024; IsoDate.month := 2; IsoDate.day := 1 |}
           {| IsoDate.year := 2024; IsoDate.month := 2; IsoDate.day := 29 |}
           {| IsoDate.year := 2024; IsoDate.month := 2; IsoDate.day := 10 |});
    try (vm_compute; repeat split; reflexivity).
  vm_compute. auto.
Defined.

(** A valid form submits its amount; an edited expense shows 200. *)
Lemma submitted_amount_nonneg_witness :
  (exists q,
     Transactions.data_amount
       (Transactions.dataOf
          (@Transactions.handleSubmit host
             (page february [move] (filled "1" "500" ""))))
     = Fin q /\ (0 <= q)%Q)
  /\ Transactions.amount
       (Transactions.form
          (@Transactions.openModal host "2024-02-15" (Some lease)
             (page february [move] blank)))
     = VNum (Fin 200).
Proof.
  destruct (@submitted_amount_nonneg host) as (Hsubmit & Hedit).
  split.
  - apply (Hsubmit (page february [move] (filled "1" "500" ""))).
    vm_compute. reflexivity.
  - destruct (Hedit "2024-02-15" lease (page february [move] blank))
      as (_ & Habs).
    destruct (Habs (-200)%Q) as (Hshown & _); [vm_compute; reflexivity|].
    exact Hshown.
Defined.

(** A missing amount in dollars and in rupees. *)
Lemma format_missing_amount_witness :
  @Api.formatCurrency host VNull (VStr "USD") = "$0.00"
  /\ @Api.formatCurrencyCompact host VUndefined VUndefined = "Rs.0"
  /\ @Api.formatCurrency host (VNum NaN) (VStr "PKR") = "Rs.0.00".
Proof.
  split; [|split].
  - apply (@format_missing_amount host VNull (VStr "USD")). auto.
  - apply (@format_missing_amount host VUndefined VUndefined). auto.
  - apply (@format_missing_amount host (VNum NaN) (VStr "PKR")). auto.
Defined.

(** Last month, seen from 15 March 2024 on the sample calendar. *)
Example dashboard_filter_last_month :
  prop (@DashboardFilter.handleTimeRangeChange host (grid 2024 2 15)
          "lastMonth" DashboardFilter.initialFilters) "startDate"
  = "2024-02-01".
Proof. vm_compute. reflexivity. Qed.

(** The category form opened for a new category, after any choice. *)
Lemma category_form_types_witness :
  In "expense" Categories.recognizedTypes
  /\ In (Categories.category_type
           (Categories.form
              (Categories.choose [1%nat]
                 (Categories.openModal None Categories.initialState))))
       ["income"; "expense"].
Proof.
  destruct category_form_types as (_ & Hoffered & Hcreate & _).
  split.
  - apply Hoffered. simpl. auto.
  - apply (Hcreate [1%nat] Categories.initialState).
Defined.

End Examples.

(** * Further properties of the code *)

(** ** The transaction list under its filters *)

Section FilterAlgebra.
Import JS Report Transactions.

Lemma filter_none {A : Type} (p : A -> bool) (l : list A) :
  (forall x, In x l -> p x = false) -> List.filter p l = [].
Proof.
  induction l as [|x l IH]; intros Hp; [reflexivity|].
  cbn [List.filter]. rewrite (Hp x) by now left.
  apply IH. intros y Hy. apply Hp. now right.
Qed.

Lemma passes_inactive (f : gmap string string) (t : Transaction.t) :
  prop f "accountId" = "" -> prop f "categoryId" = "" ->
  prop f "startDate" = "" -> prop f "endDate" = "" ->
  passes f t = true.
Proof.
  intros Ha Hc Hs He. apply passes_satisfies. unfold satisfies.
  rewrite Ha, Hc, Hs, He. repeat split; intros Hne; now destruct Hne.
Qed.

Lemma filter_all {A : Type} (p : A -> bool) (l : list A) :
  (forall x, In x l -> p x = true) -> List.filter p l = l.
Proof.
  induction l as [|x l IH]; intros Hp; [reflexivity|].
  cbn [List.filter]. rewrite (Hp x) by now left.
  f_equal. apply IH. intros y Hy. apply Hp. now right.
Qed.

Lemma filtersActive_false (st : state) :
  filtersActive st = false <->
  prop (filters st) "accountId" = "" /\ prop (filters st) "categoryId" = ""
  /\ prop (filters st) "startDate" = "" /\ prop (filters st) "endDate" = "".
Proof.
  unfold filtersActive. rewrite !orb_false_iff, !truthy_string_false. tauto.
Qed.

(** X1. "Clear All" shows every loaded transaction, which is also what
    the cleared filters select, and turns the "Filters active" badge off;
    whenever the badge is off, filtering keeps every row. *)
Theorem clearAll_shows_all (st : state) :
  transactions (clearAll st) = allTransactions st
  /\ allTransactions (clearAll st) = allTransactions st
  /\ transactions (clearAll st)
     = filterBy (filters (clearAll st)) (allTransactions (clearAll st))
  /\ filtersActive (clearAll st) = false
  /\ (filtersActive st = false ->
      forall l, filterBy (filters st) l = l).
Proof.
  assert (Hoff : forall s, filtersActive s = false ->
                   forall l, filterBy (filters s) l = l).
  { intros s Hs l. apply filtersActive_false in Hs as (Ha & Hc & Hs & He).
    rewrite filterBy_passes. apply filter_all. intros t _.
    now apply passes_inactive. }
  assert (Hclear : filtersActive (clearAll st) = false) by reflexivity.
  split; [reflexivity|]. split; [reflexivity|]. split; [|split].
  - symmetry. now apply Hoff.
  - exact Hclear.
  - apply Hoff.
Qed.

(** X2. Filtering is idempotent and works row by row: filtering a
    concatenation gives the concatenation of the filtered parts, and the
    result is never longer than the input. *)
Theorem filterBy_rowwise (f : gmap string string)
    (l1 l2 : list Transaction.t) :
  filterBy f (filterBy f l1) = filterBy f l1
  /\ filterBy f (l1 ++ l2) = filterBy f l1 ++ filterBy f l2
  /\ (length (filterBy f l1) <= length l1)%nat.
Proof.
  rewrite !filterBy_passes. split; [|split].
  - apply filter_all. intros t Ht. now apply filter_In in Ht.
  - apply List.filter_app.
  - apply List.filter_length_le.
Qed.

(** X3. Filter changes made one after the other compose as updates of
    the filter object: changes of different fields commute, a second
    change of the same field replaces the first, and the list shown is
    always recomputed from all loaded transactions, not from the rows
    shown before. *)
Theorem handleFilterChange_compose (k1 k2 v1 v2 : string) (st : state)
    (shown : list Transaction.t) :
  (k1 <> k2 ->
   handleFilterChange k2 v2 (handleFilterChange k1 v1 st)
   = handleFilterChange k1 v1 (handleFilterChange k2 v2 st))
  /\ handleFilterChange k1 v2 (handleFilterChange k1 v1 st)
     = handleFilterChange k1 v2 st
  /\ handleFilterChange k1 v1 (setTransactions shown st)
     = handleFilterChange k1 v1 st
  /\ transactions (handleFilterChange k1 v1 st)
     = filterBy (filters (handleFilterChange k1 v1 st))
         (allTransactions (handleFilterChange k1 v1 st)).
Proof.
  split; [|split; [|split]]; try reflexivity.
  - intros Hne. unfold handleFilterChange.
    cbn [filters allTransactions setTransactions setFilters].
    rewrite (insert_insert_ne (filters st) k2 k1 v2 v1) by congruence.
    reflexivity.
  - unfold handleFilterChange.
    cbn [filters allTransactions setTransactions setFilters].
    rewrite insert_insert_eq. reflexivity.
Qed.

End FilterAlgebra.

Section FilterEdges.
Import JS Report Transactions.

Lemma ascii_compare_N (a b : ascii) :
  CompareSpec (a = b) (N_of_ascii a < N_of_ascii b)%N
    (N_of_ascii b < N_of_ascii a)%N (Ascii.compare a b).
Proof.
  unfold Ascii.compare.
  destruct (N.compare_spec (N_of_ascii a) (N_of_ascii b)) as [Heq | |];
    constructor; try assumption.
  rewrite <- (ascii_N_embedding a), <- (ascii_N_embedding b).
  now rewrite Heq.
Qed.

Lemma string_leb_trans (a b c : string) :
  String.leb a b = true -> String.leb b c = true -> String.leb a c = true.
Proof.
  unfold String.leb. revert b c.
  induction a as [|x a IH]; intros [|y b] [|z c]; cbn [String.compare];
    try reflexivity; try discriminate.
  destruct (ascii_compare_N x y) as [-> | Hxy | Hxy];
    destruct (ascii_compare_N y z) as [-> | Hyz | Hyz];
    try discriminate; intros Hab Hbc.
  - destruct (ascii_compare_N z z); [now apply (IH b c) | lia | lia].
  - destruct (ascii_compare_N y z); [subst; lia | reflexivity | lia].
  - destruct (ascii_compare_N x z); [subst; lia | reflexivity | lia].
  - destruct (ascii_compare_N x z); [subst; lia | reflexivity | lia].
Qed.

(** X4. With a category selected, a transaction without a category is
    never shown; and when the selected account or category does not read
    as a number, no transaction is shown at all. *)
Theorem filter_by_identifier (f : gmap string string)
    (l : list Transaction.t) :
  (prop f "categoryId" <> "" ->
   forall t, In t (filterBy f l) ->
             exists k, Transaction.category_id t = Some k
                       /\ parseInt (prop f "categoryId") = Some k)
  /\ (prop f "accountId" <> "" ->
      forall t, In t (filterBy f l) ->
                parseInt (prop f "accountId")
                = Some (Transaction.account_id t))
  /\ (prop f "accountId" <> "" -> parseInt (prop f "accountId") = None ->
      filterBy f l = [])
  /\ (prop f "categoryId" <> "" -> parseInt (prop f "categoryId") = None ->
      filterBy f l = []).
Proof.
  rewrite filterBy_passes. split; [|split; [|split]].
  - intros Hc t Ht. apply filter_In in Ht as [_ Hp].
    apply passes_satisfies in Hp as (_ & Hcat & _). now apply Hcat.
  - intros Ha t Ht. apply filter_In in Ht as [_ Hp].
    apply passes_satisfies in Hp as (Hacc & _). now apply Hacc.
  - intros Ha Hnan. apply filter_none. intros t _.
    destruct (passes f t) eqn:Hp; [|reflexivity].
    apply passes_satisfies in Hp as (Hacc & _).
    specialize (Hacc Ha). congruence.
  - intros Hc Hnan. apply filter_none. intros t _.
    destruct (passes f t) eqn:Hp; [|reflexivity].
    apply passes_satisfies in Hp as (_ & Hcat & _).
    destruct (Hcat Hc) as (k & _ & Hk). congruence.
Qed.

(** X5. When the start date sorts after the end date, no transaction is
    shown. *)
Theorem filter_inverted_range (f : gmap string string)
    (l : list Transaction.t) :
  prop f "startDate" <> "" -> prop f "endDate" <> "" ->
  String.leb (prop f "startDate") (prop f "endDate") = false ->
  filterBy f l = [].
Proof.
  intros Hs He Hinv. rewrite filterBy_passes. apply filter_none.
  intros t _. destruct (passes f t) eqn:Hp; [|reflexivity].
  apply passes_satisfies in Hp as (_ & _ & Hfrom & Hto).
  rewrite (string_leb_trans _ _ _ (Hfrom Hs) (Hto He)) in Hinv.
  discriminate.
Qed.

Lemma find_same {A : Type} (p q : A -> bool) (l : list A) :
  (forall x, p x = q x) -> List.find p l = List.find q l.
Proof.
  intros Hpq. induction l as [|x l IH]; [reflexivity|].
  cbn [List.find]. now rewrite Hpq, IH.
Qed.

(** X6. With an account selected that is listed, every row shown carries
    that account's name; with a listed category selected whose identifier
    is not 0, every row carries that category's name. *)
Theorem filtered_rows_names (st : state) (l : list Transaction.t)
    (t : Transaction.t) :
  In t (filterBy (filters st) l) ->
  (forall a,
     prop (filters st) "accountId" <> "" ->
     List.find (fun b => id_eq (Account.id b)
                           (parseInt (prop (filters st) "accountId")))
       (accounts st) = Some a ->
     getAccountName st (Transaction.account_id t) = Account.name a)
  /\ (forall c,
        prop (filters st) "categoryId" <> "" ->
        List.find (fun d => id_eq (Category.id d)
                              (parseInt (prop (filters st) "categoryId")))
          (categories st) = Some c ->
        Category.id c <> 0 ->
        getCategoryName st (Transaction.category_id t) = Category.name c).
Proof.
  rewrite filterBy_passes. intros Ht. apply filter_In in Ht as [_ Hp].
  apply passes_satisfies in Hp as (Hacc & Hcat & _). split.
  - intros a Ha Hfind. rewrite (Hacc Ha) in Hfind.
    unfold getAccountName. cbn [id_eq] in Hfind. now rewrite Hfind.
  - intros c Hc Hfind Hnz. destruct (Hcat Hc) as (k & Hk & Hparse).
    rewrite Hparse in Hfind. unfold getCategoryName. rewrite Hk.
    pose proof (find_some _ _ Hfind) as [_ Hid]. cbn [id_eq] in Hid.
    apply Z.eqb_eq in Hid. subst k. cbn [falsy_id].
    destruct (Z.eqb_spec (Category.id c) 0) as [|_]; [contradiction|].
    cbn [nullable_id_eq id_eq].
    replace (List.find (fun c0 => Category.id c =? Category.id c0)
               (categories st))
      with (List.find (fun d => id_eq (Category.id d) (Some (Category.id c)))
              (categories st)).
    + now rewrite Hfind.
    + apply find_same. intros d. cbn [id_eq]. apply Z.eqb_sym.
Qed.

End FilterEdges.

(** ** Totals, counters and dashboard statistics *)

Section TotalsEdges.
Import JS Report.
Context `{Host}.

Lemma sum_nonneg {A : Type} (f : A -> number) (l : list A) :
  (forall x, In x l -> exists q, f x = Fin q /\ (0 <= q)%Q) ->
  exists q, sum (map f l) = Fin q /\ (0 <= q)%Q.
Proof.
  induction l as [|x l IH]; intros Hf.
  - exists 0%Q. split; [reflexivity | apply Qle_refl].
  - destruct (Hf x (in_eq _ _)) as (q & Hq & Hle).
    destruct IH as (r & Hr & Hler).
    { intros y Hy. apply Hf. now right. }
    exists (q + r)%Q. cbn [map]. rewrite sum_cons, Hq, Hr.
    split; [reflexivity|]. lra.
Qed.

Lemma sum_NaN {A : Type} (f : A -> number) (l : list A) (x : A) :
  In x l -> f x = NaN -> sum (map f l) = NaN.
Proof.
  induction l as [|y l IH]; intros Hin Hx; [destruct Hin|].
  cbn [map]. rewrite sum_cons. destruct Hin as [-> | Hin].
  - now rewrite Hx.
  - rewrite (IH Hin Hx). now destruct (f y).
Qed.

(** X7. A total of the transactions page is a number that is not
    negative when every counted transaction has a numeric [amount_pkr];
    one counted transaction whose [amount_pkr] does not read as a number
    makes the total [NaN]. *)
Theorem page_total_number_or_NaN (ty : string) (cats : list Category.t)
    (l : list Transaction.t) :
  ((forall t, In t l -> hasType ty cats t = true ->
              exists q, Transactions.amount_base t = Fin q) ->
   exists q, Transactions.totalOfType ty cats l = Fin q /\ (0 <= q)%Q)
  /\ ((exists t, In t l /\ hasType ty cats t = true
                 /\ Transactions.amount_base t = NaN) ->
      Transactions.totalOfType ty cats l = NaN).
Proof.
  rewrite transactions_totalOfType. unfold absTotal. split.
  - intros Hnum. apply sum_nonneg. intros t Ht.
    apply filter_In in Ht as [Ht Hty].
    destruct (Hnum t Ht Hty) as (q & Hq). rewrite Hq.
    exists (Qabs q). split; [reflexivity | apply Qabs_nonneg].
  - intros (t & Ht & Hty & Hnan).
    apply (sum_NaN _ _ t).
    + apply filter_In. now split.
    + now rewrite Hnan.
Qed.

(** X8. On the dashboard an amount or a balance that does not read as a
    number counts as 0: a transaction whose amount is not a number changes
    none of the four statistics, and an account whose balance is not a
    number adds nothing to the balance over all accounts. *)
Theorem dashboard_unreadable_counts_zero (filters : gmap string string)
    (cats : list Category.t) :
  (forall accountsData l1 l2 t,
     parseFloat (Transaction.amount t) = NaN ->
     Dashboard.loadDashboardData filters accountsData (l1 ++ t :: l2) cats
     = Dashboard.loadDashboardData filters accountsData (l1 ++ l2) cats)
  /\ (forall accs1 accs2 a l,
        parseFloat (Account.current_balance a) = NaN ->
        prop filters "accountId" = "" ->
        Dashboard.loadDashboardData filters (accs1 ++ a :: accs2) l cats
        = Dashboard.loadDashboardData filters (accs1 ++ accs2) l cats).
Proof.
  split.
  - intros accountsData l1 l2 t Hnan.
    assert (Hskip : forall ty,
              Dashboard.totalOfType ty cats (l1 ++ t :: l2)
              = Dashboard.totalOfType ty cats (l1 ++ l2)).
    { intros ty. unfold Dashboard.totalOfType.
      rewrite !fold_left_app. cbn [fold_left]. f_equal.
      destruct (Dashboard.no_category _); [reflexivity|].
      destruct (List.find _ cats) as [c|]; [|reflexivity].
      destruct (negb _); [reflexivity|].
      unfold Dashboard.amountOf. rewrite Hnan.
      cbn [or_else_number truthy_number]. apply add_0_r. }
    unfold Dashboard.loadDashboardData. now rewrite !Hskip.
  - intros accs1 accs2 a l Hnan Hall.
    unfold Dashboard.loadDashboardData. rewrite Hall.
    cbn [truthy_string String.eqb negb]. f_equal.
    rewrite !fold_left_app. cbn [fold_left]. f_equal.
    unfold Dashboard.balanceOf. rewrite Hnan.
    cbn [or_else_number truthy_number]. apply add_0_r.
Qed.

Lemma countOfType_hasType (ty : string) (cats : list Category.t)
    (l : list Transaction.t) :
  Transactions.countOfType ty cats l
  = length (List.filter (hasType ty cats) l).
Proof.
  unfold Transactions.countOfType. f_equal. apply filter_ext.
  intros t. now rewrite hasType_find.
Qed.

Lemma hasType_exclusive (ty ty' : string) (cats : list Category.t)
    (t : Transaction.t) :
  ty <> ty' -> hasType ty cats t = true -> hasType ty' cats t = false.
Proof.
  unfold hasType. destruct (categoryTypeOf cats t) as [u|]; [|discriminate].
  intros Hne Hu. apply String.eqb_eq in Hu. subst u.
  now apply String.eqb_neq.
Qed.

(** X9. No transaction is counted both as income and as expense: the two
    counters of the summary add up to at most the number of rows; and a
    total whose counter is 0 is 0. *)
Theorem summary_counters (st : Transactions.state) :
  (Transactions.incomeCount st + Transactions.expenseCount st
   <= length (Transactions.transactions st))%nat
  /\ (Transactions.incomeCount st = 0%nat ->
      Transactions.totalIncome st = Fin 0)
  /\ (Transactions.expenseCount st = 0%nat ->
      Transactions.totalExpenses st = Fin 0).
Proof.
  unfold Transactions.incomeCount, Transactions.expenseCount,
    Transactions.totalIncome, Transactions.totalExpenses.
  rewrite !countOfType_hasType, !transactions_totalOfType. unfold absTotal.
  generalize (Transactions.categories st) as cats.
  generalize (Transactions.transactions st) as l. intros l cats.
  split; [|split].
  - induction l as [|t l IH]; [reflexivity|]. cbn [List.filter].
    destruct (hasType "income" cats t) eqn:Hi.
    + rewrite (hasType_exclusive "income" "expense") by (discriminate || auto).
      cbn [length]. lia.
    + destruct (hasType "expense" cats t); cbn [length]; lia.
  - intros Hzero. apply length_zero_iff_nil in Hzero. now rewrite Hzero.
  - intros Hzero. apply length_zero_iff_nil in Hzero. now rewrite Hzero.
Qed.

End TotalsEdges.

(** ** The opening balance panel *)

Section OpeningBalanceEdges.
Import JS Report.
Context `{Host}.

(** X10. The opening balance box is not rendered exactly when no row is
    shown or no start date is set; it is rendered with its header and an
    empty body exactly when rows are shown, a start date is set and an
    account is selected that is not among the loaded accounts; in every
    other case the body carries the amount. *)
Theorem openingBalance_panel (st : Transactions.state) :
  (Transactions.openingBalancePanel st = Transactions.NotRendered <->
   Transactions.transactions st = []
   \/ prop (Transactions.filters st) "startDate" = "")
  /\ (Transactions.openingBalancePanel st = Transactions.Rendered None <->
      Transactions.transactions st <> []
      /\ prop (Transactions.filters st) "startDate" <> ""
      /\ prop (Transactions.filters st) "accountId" <> ""
      /\ forall a, In a (Transactions.accounts st) ->
                   parseInt (prop (Transactions.filters st) "accountId")
                   <> Some (Account.id a))
  /\ Transactions.openingBalance st
     = match Transactions.openingBalancePanel st with
       | Transactions.NotRendered => None
       | Transactions.Rendered body => body
       end.
Proof.
  unfold Transactions.openingBalancePanel, Transactions.openingBalance.
  destruct (Transactions.transactions st) as [|t0 l0].
  { split; [tauto|]. split; [|reflexivity].
    split; [discriminate | tauto]. }
  destruct (truthy_string (prop (Transactions.filters st) "startDate"))
    eqn:Hstart.
  2:{ apply truthy_string_false in Hstart.
      split; [tauto|]. split; [|reflexivity].
      split; [discriminate | tauto]. }
  apply truthy_string_true in Hstart.
  split; [|split; [|reflexivity]].
  { split; [discriminate|]. intros [Hnil | Hempty];
      [discriminate | contradiction]. }
  destruct (truthy_string (prop (Transactions.filters st) "accountId"))
    eqn:Hacc.
  - apply truthy_string_true in Hacc.
    unfold Transactions.openingBalanceAccount.
    destruct (List.find _ (Transactions.accounts st)) as [a|] eqn:Hfind.
    + split; [discriminate|]. intros (_ & _ & _ & Hnone).
      apply find_some in Hfind as [Hin Hid]. apply id_eq_true in Hid.
      now apply Hnone in Hin.
    + split; [|reflexivity]. intros _.
      split; [discriminate|]. split; [assumption|]. split; [assumption|].
      intros a Hin Hid. apply (find_none _ _ Hfind) in Hin.
      rewrite Hid in Hin. cbn [id_eq] in Hin.
      now rewrite Z.eqb_refl in Hin.
  - apply truthy_string_false in Hacc. split; [discriminate|].
    intros (_ & _ & Hne & _). contradiction.
Qed.


End OpeningBalanceEdges.

(** ** The balance impact preview *)

Section PreviewEdges.
Import JS Transactions.
Context `{Host}.

Lemma transactionImpact_inter (accs : list Account.t) (fd : formData)
    (ty : string) (x a : number) :
  transactionImpact accs fd ty x = (a, true) ->
  ty = "transfer"
  /\ truthy_string (counterparty fd) = true
  /\ String.eqb (counterparty fd) "External" = false
  /\ a = neg (Math_abs x).
Proof.
  unfold transactionImpact.
  destruct (String.eqb ty "expense"); [discriminate|].
  destruct (String.eqb ty "income"); [discriminate|].
  destruct (String.eqb_spec ty "transfer") as [-> | _]; [|discriminate].
  destruct (truthy_string (counterparty fd)); [|discriminate].
  destruct (String.eqb (counterparty fd) "External"); [discriminate|].
  cbn [negb andb]. destruct (existsb _ accs); [|discriminate].
  intros [= <-]. repeat split.
Qed.

(** X12. A transfer whose counterparty names no loaded account is
    previewed like an external transfer: the effect is the value as
    entered and no counter-entry is shown. *)
Theorem transfer_unresolved_as_entered (st : state) (i : impact) :
  balanceImpactPreview st = Impact i ->
  Category.category_type (category i) = "transfer" ->
  (forall a, In a (accounts st) ->
             Account.name a <> counterparty (form st)) ->
  actualAmount i = parseFloat (amount (form st))
  /\ isInterAccountTransfer i = false
  /\ counterEntryOf i = None.
Proof.
  intros Hprev Hty Hunknown.
  destruct (preview_Impact_inv st i Hprev)
    as (acc & cat & _ & _ & _ & Hcat & _ & _ & Himp & _ & Hcounter).
  subst cat. rewrite Hty, transactionImpact_transfer in Himp.
  assert (Hnone :
    existsb (fun a => String.eqb (Account.name a) (counterparty (form st)))
      (accounts st) = false).
  { destruct (existsb _ (accounts st)) eqn:Hex; [|reflexivity].
    apply existsb_exists in Hex as (a & Ha & Heq).
    apply String.eqb_eq in Heq. now apply Hunknown in Ha. }
  cbv zeta in Himp. rewrite Hnone, andb_false_r in Himp.
  injection Himp as Hactual Hflag.
  rewrite Hflag in Hcounter. repeat split; assumption.
Qed.

(** X13. Whatever sign is typed, an income adds the absolute value of the
    entered amount and an expense takes it; the insufficient balance
    warning never shows for an income. *)
Theorem preview_ignores_typed_sign (st : state) (i : impact) (e : Q) :
  balanceImpactPreview st = Impact i ->
  parseFloat (amount (form st)) = Fin e ->
  (Category.category_type (category i) = "income" ->
   actualAmount i = Fin (Qabs e) /\ insufficientBalance i = false)
  /\ (Category.category_type (category i) = "expense" ->
      actualAmount i = Fin (- Qabs e)%Q).
Proof.
  intros Hprev Hentered.
  pose proof Hprev as Hshape. unfold balanceImpactPreview in Hshape.
  destruct (_ && _) in Hshape; [|discriminate].
  destruct (List.find _ (accounts st)) as [acc|] in Hshape; [|discriminate].
  destruct (List.find _ (categories st)) as [cat|] in Hshape; [|discriminate].
  rewrite Hentered in Hshape.
  destruct (transactionImpact _ _ _ _) as [actual inter] eqn:Himp in Hshape.
  injection Hshape as <-. cbn [category actualAmount insufficientBalance].
  split; intros Hty; rewrite Hty in Himp; unfold transactionImpact in Himp;
    cbn in Himp; injection Himp as <- _.
  - split; [reflexivity|].
    assert (Hnot : lt (Fin (Qabs e)) (Fin 0) = false).
    { cbn [lt]. apply negb_false_iff, Qle_bool_iff, Qabs_nonneg. }
    rewrite Hnot. apply andb_false_r.
  - reflexivity.
Qed.


(** X24. The table names a counterparty the way the preview treats it:
    "External" is always the external party, and a counterparty for which
    a counter-entry is previewed is shown with the type of the account
    that receives the counter-entry. *)
Theorem counterparty_display_agrees (st : state) :
  getCounterpartyDisplay st (Some "External") = "External Party"
  /\ getCounterpartyDisplay st None = "-"
  /\ forall i c,
       balanceImpactPreview st = Impact i ->
       counterEntryOf i = Some c ->
       getCounterpartyDisplay st (Some (counterparty (form st)))
       = (counterparty (form st) ++ " ("
          ++ Account.account_type (counterpartyAccount c) ++ ")")%string.
Proof.
  split; [reflexivity|]. split; [reflexivity|].
  intros i c Hprev Hc.
  destruct (preview_Impact_inv st i Hprev)
    as (acc & cat & _ & _ & _ & _ & _ & _ & Himp & _ & Hcounter).
  rewrite Hc in Hcounter. unfold counterpartyPreview in Hcounter.
  destruct (isInterAccountTransfer i) eqn:Hinter; [|discriminate].
  symmetry in Himp.
  apply transactionImpact_inter in Himp as (_ & Htruthy & Hext & _).
  rewrite Htruthy in Hcounter. cbn [andb] in Hcounter.
  unfold getCounterpartyDisplay. rewrite Htruthy, Hext. cbn [negb].
  destruct (List.find _ (accounts st)) as [cp|]; [|discriminate].
  injection Hcounter as Hceq. now subst c.
Qed.

End PreviewEdges.

(** ** The transaction form and the filter buttons *)

Section FormEdges.
Import JS Transactions.
Context `{Host}.

Lemma truthy_id (k : Z) : truthy (VNum (Fin (inject_Z k))) = negb (k =? 0).
Proof.
  cbn [truthy truthy_number]. f_equal.
  unfold Qeq_bool, inject_Z. cbn [Qnum Qden].
  rewrite !Z.mul_1_r. reflexivity.
Qed.

Lemma parseInt_id (k : Z) : parseInt_value (VNum (Fin (inject_Z k))) = Some k.
Proof. cbn. now rewrite Z.quot_1_r. Qed.

Lemma parsed_id_or_empty (i : option Z) :
  (if truthy (id_or_empty i) then Some (parseInt_value (id_or_empty i))
   else None)
  = if falsy_id i then None else Some i.
Proof.
  destruct i as [k|]; [|reflexivity]. cbn [id_or_empty falsy_id].
  destruct (Z.eqb_spec k 0) as [-> | Hk]; [reflexivity|].
  rewrite truthy_id, parseInt_id.
  destruct (Z.eqb_spec k 0); [contradiction | reflexivity].
Qed.

(** X15. When a transaction opened for editing is saved unchanged, the
    form lets it through only if it has a category (not missing, not 0);
    the request is then an update of that transaction with its own
    account, category and date, the absolute value of its amount, which is
    a number, its team or null, and the currency PKR whatever its own
    currency was. *)
Theorem edit_unchanged_request (today : string) (tr : Transaction.t)
    (st : state) (r : request) :
  submitForm (openModal today (Some tr) st) = Some r ->
  exists k q,
    Transaction.category_id tr = Some k /\ k <> 0
    /\ Math_abs (ToNumber (Transaction.amount tr)) = Fin q /\ (0 <= q)%Q
    /\ r = Update (Transaction.id tr) (dataOf r)
    /\ data_account_id (dataOf r) = Some (Transaction.account_id tr)
    /\ data_amount (dataOf r) = Fin q
    /\ data_category_id (dataOf r) = Some (Some k)
    /\ data_team_id (dataOf r)
       = (if falsy_id (Transaction.team_id tr) then None
          else Some (Transaction.team_id tr))
    /\ transaction_date (data_form (dataOf r))
       = Transaction.transaction_date tr
    /\ currency (data_form (dataOf r)) = "PKR".
Proof.
  unfold submitForm.
  destruct (checkValidity _) eqn:Hvalid; [|discriminate].
  intros [= <-]. unfold checkValidity in Hvalid.
  cbn [openModal form account_id amount category_id transaction_date]
    in Hvalid.
  rewrite !andb_true_iff in Hvalid.
  destruct Hvalid as [[[_ Hamount] Hcat] _].
  destruct (Transaction.category_id tr) as [k|] eqn:Hk;
    [|discriminate Hcat].
  cbn [id_or_empty] in Hcat.
  destruct (Z.eqb_spec k 0) as [-> | Hk0]; [discriminate Hcat|].
  unfold amountInputValid in Hamount. cbn [parseFloat] in Hamount.
  destruct (Math_abs (ToNumber (Transaction.amount tr))) as [q|] eqn:Hq;
    [|discriminate Hamount].
  apply andb_true_iff in Hamount as [Hle _]. apply Qle_bool_iff in Hle.
  exists k, q.
  cbn [handleSubmit dataOf openModal editingTransaction form data_account_id
       data_amount data_category_id data_team_id data_form account_id amount
       category_id team_id transaction_date currency].
  rewrite Hk, Hq, parseInt_id, !parsed_id_or_empty.
  cbn [falsy_id]. destruct (Z.eqb_spec k 0); [contradiction|].
  repeat split; try assumption; reflexivity.
Qed.

(** X16. A form opened for a new transaction cannot be submitted as it
    is and shows no balance preview; a transaction without a category
    cannot be saved from the edit form until a category is chosen. *)
Theorem unfilled_form_blocked (today : string) (st : state) :
  submitForm (openModal today None st) = None
  /\ balanceImpactPreview (openModal today None st) = NoPreview
  /\ forall tr,
       falsy_id (Transaction.category_id tr) = true ->
       submitForm (openModal today (Some tr) st) = None
       /\ balanceImpactPreview (openModal today (Some tr) st) = NoPreview.
Proof.
  split; [reflexivity|]. split; [reflexivity|].
  intros tr Hnone.
  assert (Hcat : truthy (id_or_empty (Transaction.category_id tr)) = false).
  { destruct (Transaction.category_id tr) as [k|]; [|reflexivity].
    cbn [falsy_id] in Hnone. cbn [id_or_empty]. now rewrite Hnone. }
  split.
  - unfold submitForm, checkValidity.
    cbn [openModal form account_id amount category_id transaction_date].
    rewrite Hcat. now rewrite andb_false_r.
  - unfold balanceImpactPreview.
    cbn [openModal form account_id amount category_id].
    rewrite Hcat. now rewrite andb_false_r.
Qed.

(** X17. The "This Month" button issues two filter changes from the same
    render, so the second overrides the first: the button only sets the
    end date, the start date keeps the value it had, and the list shown
    is the one for that filter.  A single change run this way is
    [handleFilterChange]. *)
Theorem thisMonth_sets_end_only (firstDay lastDay : string) (st : state) :
  thisMonthClick firstDay lastDay st = handleFilterChange "endDate" lastDay st
  /\ prop (filters (thisMonthClick firstDay lastDay st)) "startDate"
     = prop (filters st) "startDate"
  /\ prop (filters (thisMonthClick firstDay lastDay st)) "endDate" = lastDay
  /\ transactions (thisMonthClick firstDay lastDay st)
     = filterBy (<["endDate" := lastDay]> (filters st)) (allTransactions st)
  /\ forall k v, runCalls [handleFilterChangeCall k v st] st
                 = handleFilterChange k v st.
Proof.
  split; [reflexivity|]. split; [|split; [|split]].
  - cbn. now rewrite prop_insert_ne by discriminate.
  - cbn. apply prop_insert_eq.
  - reflexivity.
  - reflexivity.
Qed.

End FormEdges.

(** ** Currency formatting *)

Section FormatEdges.
Import JS Api.
Context `{Host}.

Lemma Qabs_opp_eq (q : Q) : Qabs (- q) = Qabs q.
Proof. destruct q as [n d]. unfold Qopp, Qabs. cbn. f_equal. lia. Qed.

Lemma not_usd (currency : value) :
  currency <> VStr "USD" ->
  strict_eq (currencyOrDefault currency) (VStr "USD") = false.
Proof.
  intros Hne. destruct currency as [| |n|s]; cbn; try reflexivity.
  - now destruct n.
  - apply String.eqb_neq. congruence.
Qed.

(** X18. Every currency other than 'USD' is formatted as rupees: the
    result is the one for 'PKR', with the symbol "Rs.". *)
Theorem non_usd_formats_as_pkr (amount currency : value) :
  currency <> VStr "USD" ->
  formatCurrency amount currency = formatCurrency amount (VStr "PKR")
  /\ formatCurrencyCompact amount currency
     = formatCurrencyCompact amount (VStr "PKR")
  /\ symbolOf (currencyOrDefault currency) = "Rs.".
Proof.
  intros Hne. apply not_usd in Hne.
  unfold formatCurrency, formatCurrencyCompact, symbolOf.
  rewrite Hne. repeat split.
Qed.

(** X19. The compact format of a negative amount is a minus sign before
    the compact format of its absolute value. *)
Theorem compact_negative (q : Q) (currency : value) :
  (0 < q)%Q ->
  formatCurrencyCompact (VNum (Fin (- q))) currency
  = ("-" ++ formatCurrencyCompact (VNum (Fin q)) currency)%string.
Proof.
  intros Hq. unfold formatCurrencyCompact.
  cbn [isNaN ToNumber strict_eq orb Math_abs].
  rewrite Qabs_opp_eq.
  assert (Hneg : lt (Fin (- q)) (Fin 0) = true).
  { cbn [lt]. apply negb_true_iff.
    destruct (Qle_bool 0 (- q)) eqn:Hle; [|reflexivity].
    apply Qle_bool_iff in Hle. lra. }
  assert (Hpos : lt (Fin q) (Fin 0) = false).
  { cbn [lt]. apply negb_false_iff, Qle_bool_iff. lra. }
  rewrite Hneg, Hpos.
  destruct (ge _ (Fin 10000000)); [reflexivity|].
  destruct (ge _ (Fin 100000)); [reflexivity|].
  destruct (ge _ (Fin 1000)); reflexivity.
Qed.

(** X20. When [Intl.NumberFormat] is not available, [formatCurrency]
    falls back to the symbol and the absolute value with two decimals: a
    negative amount is printed like the positive one. *)
Theorem fallback_drops_sign (q : Q) (currency : value) :
  (forall locale code x, NumberFormat_format locale code x = None) ->
  formatCurrency (VNum (Fin q)) currency
  = (symbolOf (currencyOrDefault currency) ++ toFixed (Fin (Qabs q)) 2)%string
  /\ formatCurrency (VNum (Fin (- q))) currency
     = formatCurrency (VNum (Fin q)) currency.
Proof.
  intros Hintl. unfold formatCurrency.
  cbn [isNaN ToNumber strict_eq orb Math_abs].
  rewrite !Hintl, Qabs_opp_eq. split; reflexivity.
Qed.

End FormatEdges.

(** ** The dashboard filter and its requests *)

Section DashboardFilterEdges.
Import JS DashboardFilter.
Context `{Host}.

Lemma timeRange_keeps_field (now : Z) (tr k : string)
    (f : gmap string string) :
  k <> "timeRange" -> k <> "startDate" -> k <> "endDate" ->
  prop (handleTimeRangeChange now tr f) k = prop f k.
Proof.
  intros Ht Hs He. unfold handleTimeRangeChange. cbv zeta.
  destruct (String.eqb tr "all"); [|destruct (String.eqb tr "custom");
    [|destruct (getTimeRangeOptions now !! tr)]];
    now rewrite ?prop_insert_ne by congruence.
Qed.

(** X21. The time range selector never changes the account, team or
    category filter; the range 'custom' leaves the dates as they are; a
    change of the account, team or category field changes nothing but
    that field. *)
Theorem dashboard_filter_frame (now : Z) (tr field v k : string)
    (f : gmap string string) :
  (k <> "timeRange" -> k <> "startDate" -> k <> "endDate" ->
   prop (handleTimeRangeChange now tr f) k = prop f k)
  /\ (tr = "custom" ->
      prop (handleTimeRangeChange now tr f) "startDate" = prop f "startDate"
      /\ prop (handleTimeRangeChange now tr f) "endDate" = prop f "endDate"
      /\ prop (handleTimeRangeChange now tr f) "timeRange" = tr)
  /\ (k <> field -> k <> "timeRange" ->
      prop (handleFilterChange field v f) k = prop f k)
  /\ (field <> "startDate" -> field <> "endDate" -> field <> "timeRange" ->
      prop (handleFilterChange field v f) "timeRange" = prop f "timeRange").
Proof.
  split; [|split; [|split]].
  - apply timeRange_keeps_field.
  - intros Hkeep. unfold handleTimeRangeChange. cbv zeta.
    assert (Hframe :
      prop (<["timeRange" := tr]> f) "startDate" = prop f "startDate"
      /\ prop (<["timeRange" := tr]> f) "endDate" = prop f "endDate"
      /\ prop (<["timeRange" := tr]> f) "timeRange" = tr).
    { rewrite !prop_insert_ne by discriminate. now rewrite prop_insert_eq. }
    subst tr. exact Hframe.
  - intros Hk Ht. unfold handleFilterChange.
    destruct (_ || _); now rewrite ?prop_insert_ne by congruence.
  - intros Hs He Ht. unfold handleFilterChange.
    apply String.eqb_neq in Hs, He. rewrite Hs, He. cbn [orb].
    now rewrite prop_insert_ne by congruence.
Qed.

Lemma isFiltered_true (f : gmap string string) :
  Dashboard.isFiltered f = true <->
  exists k v, f !! k = Some v /\ v <> "" /\ v <> "all".
Proof.
  unfold Dashboard.isFiltered. rewrite existsb_exists. split.
  - intros ([k v] & Hin & Htest). cbn [snd] in Htest.
    rewrite !andb_true_iff, !negb_true_iff in Htest.
    destruct Htest as [[_ Hne] Hall].
    apply String.eqb_neq in Hne, Hall.
    exists k, v. split; [|now split].
    apply elem_of_map_to_list. now apply list_elem_of_In.
  - intros (k & v & Hk & Hne & Hall). exists (k, v). split.
    + apply list_elem_of_In. now apply elem_of_map_to_list.
    + cbn [snd]. rewrite !andb_true_iff, !negb_true_iff. repeat split.
      * now apply truthy_string_true.
      * now apply String.eqb_neq.
      * now apply String.eqb_neq.
Qed.

Lemma prop_lookup (f : gmap string string) (k v : string) :
  prop f k = v -> v <> "" -> f !! k = Some v.
Proof.
  unfold prop. destruct (f !! k) as [w|]; cbn; congruence.
Qed.

(** X22. The dashboard counts the time range itself as a filter: after
    "Clear Filters" no filter is reported, but any range other than 'all'
    is reported as a filter, and so is a date changed by hand, even when
    it was emptied; a field set to a value other than '' and 'all' is
    always reported. *)
Theorem dashboard_isFiltered (now : Z) (tr field v : string)
    (f : gmap string string) :
  Dashboard.isFiltered clearFilters = false
  /\ (tr <> "" -> tr <> "all" ->
      Dashboard.isFiltered (handleTimeRangeChange now tr f) = true)
  /\ Dashboard.isFiltered (handleFilterChange "startDate" v f) = true
  /\ Dashboard.isFiltered (handleFilterChange "endDate" v f) = true
  /\ (v <> "" -> v <> "all" -> field <> "timeRange" ->
      Dashboard.isFiltered (handleFilterChange field v f) = true).
Proof.
  split; [|split; [|split; [|split]]].
  - destruct (Dashboard.isFiltered clearFilters) eqn:Hf; [|reflexivity].
    apply isFiltered_true in Hf as (k & w & Hk & Hne & Hall).
    unfold clearFilters, initialFilters in Hk.
    repeat (rewrite lookup_insert in Hk; case_decide;
            [injection Hk as <-; congruence|]).
    now rewrite lookup_empty in Hk.
  - intros Hne Hall. apply isFiltered_true. exists "timeRange", tr.
    split; [|now split]. apply prop_lookup; [|assumption].
    unfold handleTimeRangeChange. cbv zeta.
    apply String.eqb_neq in Hall. rewrite Hall.
    destruct (String.eqb tr "custom");
      [|destruct (getTimeRangeOptions now !! tr)];
      rewrite ?prop_insert_ne by discriminate; apply prop_insert_eq.
  - apply isFiltered_true. exists "timeRange", "custom".
    split; [|split; discriminate]. apply lookup_insert_eq.
  - apply isFiltered_true. exists "timeRange", "custom".
    split; [|split; discriminate]. apply lookup_insert_eq.
  - intros Hne Hall Hfield. apply isFiltered_true. exists field, v.
    split; [|now split]. unfold handleFilterChange.
    destruct (_ || _).
    + rewrite lookup_insert_ne by congruence. apply lookup_insert_eq.
    + apply lookup_insert_eq.
Qed.

(** X23. The dashboard asks the API for a date bound only when the
    filter has one: 'All Time' sends no bounds, a named range sends the
    bounds computed for it, and the account, team and category
    parameters do not depend on the time range. *)
Theorem dashboard_request_dates (now : Z) (tr : string)
    (f : gmap string string) :
  (Dashboard.start_date
     (Dashboard.buildParams (handleTimeRangeChange now "all" f)) = None
   /\ Dashboard.end_date
        (Dashboard.buildParams (handleTimeRangeChange now "all" f)) = None)
  /\ (forall r,
        tr <> "all" -> tr <> "custom" ->
        getTimeRangeOptions now !! tr = Some r ->
        start r <> "" -> end_ r <> "" ->
        Dashboard.start_date
          (Dashboard.buildParams (handleTimeRangeChange now tr f))
        = Some (start r)
        /\ Dashboard.end_date
             (Dashboard.buildParams (handleTimeRangeChange now tr f))
           = Some (end_ r))
  /\ Dashboard.account_id
       (Dashboard.buildParams (handleTimeRangeChange now tr f))
     = Dashboard.account_id (Dashboard.buildParams f)
  /\ Dashboard.team_id
       (Dashboard.buildParams (handleTimeRangeChange now tr f))
     = Dashboard.team_id (Dashboard.buildParams f)
  /\ Dashboard.category_id
       (Dashboard.buildParams (handleTimeRangeChange now tr f))
     = Dashboard.category_id (Dashboard.buildParams f)
  /\ Dashboard.limit
       (Dashboard.buildParams (handleTimeRangeChange now tr f)) = 1000.
Proof.
  pose proof (timeRange_keeps_field now tr "accountId" f) as Hacc.
  pose proof (timeRange_keeps_field now tr "teamId" f) as Hteam.
  pose proof (timeRange_keeps_field now tr "categoryId" f) as Hcat.
  unfold Dashboard.buildParams.
  cbn [Dashboard.start_date Dashboard.end_date Dashboard.account_id
       Dashboard.team_id Dashboard.category_id Dashboard.limit].
  rewrite Hacc, Hteam, Hcat by discriminate.
  split; [|split]; [| |repeat split].
  - replace (handleTimeRangeChange now "all" f)
      with (<["endDate" := ""]> (<["startDate" := ""]>
              (<["timeRange" := "all"]> f))) by reflexivity.
    rewrite prop_insert_eq.
    rewrite (prop_insert_ne _ "endDate" "startDate") by discriminate.
    rewrite prop_insert_eq. split; reflexivity.
  - intros r Hall Hcustom Hr Hs He.
    destruct (handleTimeRangeChange_named now tr r f Hall Hcustom Hr)
      as (-> & -> & _).
    unfold Dashboard.when_set.
    apply truthy_string_true in Hs, He. now rewrite Hs, He.
Qed.

End DashboardFilterEdges.

(** ** The further properties on the sample ledger *)

Section MoreExamples.
Import JS Sample.

(** "Clear All" on the February page brings back the four entries. *)
Lemma clearAll_shows_all_witness :
  Transactions.transactions
    (Transactions.clearAll (page february [move] blank)) = ledger
  /\ Transactions.filterBy
       (Transactions.filters
          (Transactions.clearAll (page february [move] blank))) ledger
     = ledger.
Proof.
  destruct (clearAll_shows_all (page february [move] blank))
    as (Hshown & _ & _ & Hoff & _).
  destruct (clearAll_shows_all
              (Transactions.clearAll (page february [move] blank)))
    as (_ & _ & _ & _ & Hkeep).
  split; [exact Hshown|]. apply Hkeep. exact Hoff.
Defined.

(** Selecting the account and then the category, or the other way. *)
Lemma handleFilterChange_compose_witness :
  Transactions.handleFilterChange "categoryId" "2"
    (Transactions.handleFilterChange "accountId" "1"
       (page february [move] blank))
  = Transactions.handleFilterChange "accountId" "1"
      (Transactions.handleFilterChange "categoryId" "2"
         (page february [move] blank)).
Proof.
  destruct (handleFilterChange_compose "accountId" "categoryId" "1" "2"
              (page february [move] blank) []) as (Hcommute & _).
  apply Hcommute. discriminate.
Defined.

(** An account filter that is no number hides every entry. *)
Lemma filter_by_identifier_witness :
  Transactions.filterBy noNumber ledger = [].
Proof.
  destruct (filter_by_identifier noNumber ledger) as (_ & _ & Hnan & _).
  apply Hnan; [vm_compute; discriminate | reflexivity].
Defined.

(** From 1 March to 1 February nothing is shown. *)
Lemma filter_inverted_range_witness :
  Transactions.filterBy inverted ledger = [].
Proof.
  apply filter_inverted_range.
  - vm_compute. discriminate.
  - vm_compute. discriminate.
  - vm_compute. reflexivity.
Defined.

(** With the cash account selected, the row of the loose entry is named
    "Cash". *)
Lemma filtered_rows_names_witness :
  Transactions.getAccountName (page cashOnly [loose] blank)
    (Transaction.account_id loose) = "Cash".
Proof.
  destruct (filtered_rows_names (page cashOnly [loose] blank) ledger loose)
    as (Hname & _).
  - vm_compute. auto.
  - apply (Hname cash); [vm_compute; discriminate | reflexivity].
Defined.

(** The income total of the ledger is a number; with the garbled entry
    it is [NaN]. *)
Lemma page_total_number_or_NaN_witness :
  (exists q,
     @Transactions.totalOfType host "income" [salary; rent; movement] ledger
     = Fin q /\ (0 <= q)%Q)
  /\ @Transactions.totalOfType host "income" [salary; rent; movement]
       (ledger ++ [garbled]) = NaN.
Proof.
  split.
  - apply (@page_total_number_or_NaN host "income" [salary; rent; movement]
             ledger).
    intros t [<- | [<- | [<- | [<- | []]]]] _; vm_compute; eauto.
  - apply (@page_total_number_or_NaN host "income" [salary; rent; movement]
             (ledger ++ [garbled])).
    exists garbled. split; [|split; reflexivity].
    apply in_or_app. right. now left.
Defined.

(** The garbled entry and the account with a garbled balance leave the
    statistics of the dashboard as they are: income 500, balance 1300. *)
Lemma dashboard_unreadable_counts_zero_witness :
  Dashboard.totalIncome
    (@Dashboard.loadDashboardData host february [cash; bank]
       ([pay] ++ garbled :: [lease; move; loose]) [salary; rent; movement])
  = Fin 500
  /\ Dashboard.totalCurrentBalance
       (@Dashboard.loadDashboardData host february
          ([cash] ++ stale :: [bank]) ledger [salary; rent; movement])
     = Fin 1300.
Proof.
  destruct (@dashboard_unreadable_counts_zero host february
              [salary; rent; movement]) as (Hrow & Haccount).
  split.
  - rewrite (Hrow [cash; bank] [pay] [lease; move; loose] garbled eq_refl).
    vm_compute. reflexivity.
  - rewrite (Haccount [cash] [bank] stale ledger eq_refl eq_refl).
    vm_compute. reflexivity.
Defined.

(** A page that shows only the lease has no income. *)
Lemma summary_counters_witness :
  @Transactions.totalIncome host (page february [lease] blank) = Fin 0.
Proof.
  destruct (@summary_counters host (page february [lease] blank))
    as (_ & Hincome & _).
  apply Hincome. reflexivity.
Defined.

(** With an account selected that is not loaded, the box is rendered with
    an empty body; with no row shown, it is not rendered. *)
Lemma openingBalance_panel_witness :
  @Transactions.openingBalancePanel host (page notLoaded [move] blank)
  = Transactions.Rendered None
  /\ @Transactions.openingBalancePanel host (page february [] blank)
     = Transactions.NotRendered.
Proof.
  destruct (@openingBalance_panel host (page notLoaded [move] blank))
    as (_ & Hempty & _).
  destruct (@openingBalance_panel host (page february [] blank))
    as (Hnone & _ & _).
  split.
  - apply Hempty. split; [discriminate|].
    split; [vm_compute; discriminate|].
    split; [vm_compute; discriminate|].
    intros a [<- | [<- | []]]; vm_compute; discriminate.
  - apply Hnone. now left.
Defined.


(** A transfer to "Savings", which is no account. *)
Lemma transfer_unresolved_as_entered_witness :
  exists i,
    @Transactions.balanceImpactPreview host
      (page february [move] (filled "3" "300" "Savings"))
    = Transactions.Impact i
    /\ Transactions.actualAmount i = Fin 300
    /\ Transactions.counterEntryOf i = None.
Proof.
  eexists. split; [vm_compute; reflexivity|].
  destruct (@transfer_unresolved_as_entered host
              (page february [move] (filled "3" "300" "Savings")) _
              eq_refl eq_refl) as (Hactual & _ & Hnone).
  - intros a [<- | [<- | []]]; discriminate.
  - split; [exact Hactual | exact Hnone].
Defined.

(** An income typed as -500 adds 500. *)
Lemma preview_ignores_typed_sign_witness :
  exists i,
    @Transactions.balanceImpactPreview host
      (page february [move] (filled "1" "-500" ""))
    = Transactions.Impact i
    /\ Transactions.actualAmount i = Fin 500
    /\ Transactions.insufficientBalance i = false.
Proof.
  eexists. split; [vm_compute; reflexivity|].
  destruct (@preview_ignores_typed_sign host
              (page february [move] (filled "1" "-500" "")) _ (-500)%Q
              eq_refl eq_refl) as (Hincome & _).
  apply Hincome. reflexivity.
Defined.


Lemma counterparty_display_agrees_witness :
  Transactions.getCounterpartyDisplay
    (page february [move] (filled "3" "300" "Bank")) (Some "Bank")
  = "Bank (asset)".
Proof.
  destruct (@counterparty_display_agrees host
              (page february [move] (filled "3" "300" "Bank")))
    as (_ & _ & Hshown).
  apply (Hshown _ _ eq_refl eq_refl).
Defined.

(** The lease, an expense of -200.00 in category 2, saved unchanged: an
    update of transaction 2 with the amount 200 and the category 2. *)
Lemma edit_unchanged_request_witness :
  exists r,
    @Transactions.submitForm host
      (@Transactions.openModal host "2024-02-15" (Some lease)
         (page february ledger blank)) = Some r
    /\ r = Transactions.Update 2 (Transactions.dataOf r)
    /\ Transactions.data_category_id (Transactions.dataOf r)
       = Some (Some 2)
    /\ Transactions.data_amount (Transactions.dataOf r) = Fin 200.
Proof.
  eexists. split; [vm_compute; reflexivity|].
  destruct (@edit_unchanged_request host "2024-02-15" lease
              (page february ledger blank) _ eq_refl)
    as (k & q & Hk & _ & Hq & _ & Hr & _ & Hamount & Hcat & _).
  split; [exact Hr|]. split.
  - etransitivity; [exact Hcat|]. now injection Hk as <-.
  - etransitivity; [exact Hamount|]. rewrite <- Hq. vm_compute. reflexivity.
Defined.

(** The loose entry has no category: its edit form cannot be saved. *)
Lemma unfilled_form_blocked_witness :
  @Transactions.submitForm host
    (@Transactions.openModal host "2024-02-15" (Some loose)
       (page february [move] blank)) = None.
Proof.
  destruct (@unfilled_form_blocked host "2024-02-15"
              (page february [move] blank)) as (_ & _ & Hedit).
  apply (Hedit loose). reflexivity.
Defined.

(** Pounds are printed as rupees. *)
Lemma non_usd_formats_as_pkr_witness :
  @Api.formatCurrency host (VNum (Fin 1234)) (VStr "GBP")
  = @Api.formatCurrency host (VNum (Fin 1234)) (VStr "PKR").
Proof.
  apply (@non_usd_formats_as_pkr host (VNum (Fin 1234)) (VStr "GBP")).
  discriminate.
Defined.

Lemma compact_negative_witness :
  @Api.formatCurrencyCompact host (VNum (Fin (- 1500))) (VStr "PKR")
  = ("-" ++ @Api.formatCurrencyCompact host (VNum (Fin 1500)) (VStr "PKR"))%string.
Proof.
  apply (@compact_negative host 1500 (VStr "PKR")).
  unfold Qlt. simpl. lia.
Defined.

(** Without [Intl], -200 is printed as "Rs.200.00". *)
Lemma fallback_drops_sign_witness :
  @Api.formatCurrency host (VNum (Fin (- 200))) VUndefined
  = @Api.formatCurrency host (VNum (Fin 200)) VUndefined.
Proof.
  apply (@fallback_drops_sign host 200 VUndefined). reflexivity.
Defined.

(** Selecting "Last Month" keeps the selected account. *)
Lemma dashboard_filter_frame_witness :
  prop (@DashboardFilter.handleTimeRangeChange host (grid 2024 2 15)
          "lastMonth" (<["accountId" := "1"]> DashboardFilter.initialFilters))
    "accountId"
  = prop (<["accountId" := "1"]> DashboardFilter.initialFilters) "accountId".
Proof.
  destruct (@dashboard_filter_frame host (grid 2024 2 15) "lastMonth" "" ""
              "accountId"
              (<["accountId" := "1"]> DashboardFilter.initialFilters))
    as (Hkeep & _).
  apply Hkeep; discriminate.
Defined.

(** "This Year" counts as a filter on the dashboard. *)
Lemma dashboard_isFiltered_witness :
  Dashboard.isFiltered
    (@DashboardFilter.handleTimeRangeChange host (grid 2024 2 15) "thisYear"
       DashboardFilter.initialFilters) = true.
Proof.
  destruct (@dashboard_isFiltered host (grid 2024 2 15) "thisYear" "" ""
              DashboardFilter.initialFilters) as (_ & Hrange & _).
  apply Hrange; discriminate.
Defined.

(** "Last Month" on 15 March 2024 asks for the sample calendar's
    February. *)
Lemma dashboard_request_dates_witness :
  Dashboard.start_date
    (Dashboard.buildParams
       (@DashboardFilter.handleTimeRangeChange host (grid 2024 2 15)
          "lastMonth" DashboardFilter.initialFilters))
  = Some "2024-02-01".
Proof.
  destruct (@dashboard_request_dates host (grid 2024 2 15) "lastMonth"
              DashboardFilter.initialFilters) as (_ & Hnamed & _).
  destruct (Hnamed {| DashboardFilter.start := "2024-02-01";
                      DashboardFilter.end_ := "2024-02-31" |})
    as (Hstart & _); try discriminate.
  - vm_compute. reflexivity.
  - exact Hstart.
Defined.

End MoreExamples.
